(** * Web3Eth: the Ethereum JSON-RPC binding of packages/web3-eth

    A shallow embedding of [packages/web3-eth/src/index.ts].  Every public
    method of the class [Web3Eth] is one definition below, written in a small
    monad that threads the transcript of what was handed to the request
    manager and propagates JavaScript exceptions.  The helpers the class
    imports from [web3-utils] ([formatInput], [formatOutput],
    [formatRpcResultArray]) and the request manager itself are parameters of
    the embedding; a model of the converter, written from the specification,
    is given afterwards and plugged in where a statement needs it. *)

From Stdlib Require Import ZArith NArith List String Ascii Bool Lia.
Import ListNotations.
Open Scope string_scope.

(** ** JavaScript values *)

(** The values that cross the binding: JSON values, [undefined] and bigints.
    Numbers are the integral ones (the protocol has no others). *)
#[warnings="-register-all"]
Inductive JsValue : Type :=
| JsUndefined
| JsNull
| JsBool (b : bool)
| JsNumber (n : Z)
| JsBigInt (n : Z)
| JsString (s : string)
| JsArray (items : list JsValue)
| JsObject (fields : list (string * JsValue)).

(** An object is the sequence of its own properties in insertion order. *)
Definition Object := list (string * JsValue).

(** [o.k]: a property that is absent reads as [undefined]. *)
Fixpoint getProp (o : Object) (k : string) : JsValue :=
  match o with
  | [] => JsUndefined
  | (k', v) :: rest => if String.eqb k k' then v else getProp rest k
  end.

(** [{...o, k: v}]: an existing key keeps its place, a new one goes last. *)
Fixpoint setProp (o : Object) (k : string) (v : JsValue) : Object :=
  match o with
  | [] => [(k, v)]
  | (k', v') :: rest =>
      if String.eqb k k' then (k, v) :: rest else (k', v') :: setProp rest k v
  end.

Definition hasProp (o : Object) (k : string) : bool :=
  existsb (fun kv => String.eqb k (fst kv)) o.

(** [{...o}] where [o] may be [undefined] (spreading [undefined] gives [{}]). *)
Definition spread (o : option Object) : Object :=
  match o with
  | Some fields => fields
  | None => []
  end.

(** The condition of [v ? a : b]. *)
Definition truthy (v : JsValue) : bool :=
  match v with
  | JsUndefined | JsNull => false
  | JsBool b => b
  | JsNumber n | JsBigInt n => negb (n =? 0)%Z
  | JsString s => negb (String.eqb s "")
  | JsArray _ | JsObject _ => true
  end.

(** ** Exceptions and the transcript of the request manager *)

Record JsError : Type := mkJsError { name : string; message : string }.

(** [Error(msg)] *)
Definition Error (msg : string) : JsError :=
  {| name := "Error"; message := msg |}.

Inductive Completion (A : Type) : Type :=
| Normal (a : A)
| Abrupt (e : JsError).
Arguments Normal {A} a.
Arguments Abrupt {A} e.

(** One call into the request manager: which of its two entry points was
    used, the request object and the provider options passed along. *)
Inductive Transmission : Type :=
| ViaSend (request : Object) (providerCallOptions : JsValue)
| ViaSubscribe (request : Object) (providerCallOptions : JsValue).

Definition Transcript := list Transmission.

(** A computation that may call the request manager and may throw. *)
Definition Async (A : Type) : Type := Transcript -> Completion A * Transcript.

Definition ret {A} (a : A) : Async A := fun w => (Normal a, w).

Definition throw {A} (e : JsError) : Async A := fun w => (Abrupt e, w).

Definition bind {A B} (m : Async A) (k : A -> Async B) : Async B :=
  fun w =>
    match m w with
    | (Normal a, w') => k a w'
    | (Abrupt e, w') => (Abrupt e, w')
    end.

(** A synchronous call that returns or throws. *)
Definition lift {A} (c : Completion A) : Async A := fun w => (c, w).

(** [try { body } catch (error) { handler }] *)
Definition tryCatch {A} (body : Async A) (handler : JsError -> Async A) : Async A :=
  fun w =>
    match body w with
    | (Normal a, w') => (Normal a, w')
    | (Abrupt e, w') => handler e w'
    end.

Declare Scope async_scope.
Delimit Scope async_scope with async.
Notation "x <- m ;; k" := (bind m (fun x => k))
  (at level 61, m at next level, right associativity) : async_scope.
Open Scope async_scope.

(** ** Types of the binding *)

(** Modelled from the spec: [ValidTypesEnum] of web3-utils, whose declaration
    is not among the sources: the representations a caller may ask for.
    The members are taken to be truthy, as those of a string enum are. *)
Inductive ValidTypesEnum : Type :=
| HexString
| DecimalString
| Number
| BigInt.

(** Modelled from the spec: [BlockTags] of ../types, whose declaration is
    not among the sources: the reserved keywords of a block identifier. *)
Definition BlockTags : list string := ["latest"; "earliest"; "pending"].

(** [CallOptions] of web3-providers-base: absent members are [None],
    [undefined] or [false]. *)
Record CallOptions : Type := mkCallOptions {
  rpcOptions : option Object;
  providerCallOptions : JsValue;
  subscribe : bool;
  returnType : option ValidTypesEnum
}.

Record Web3EthOptions : Type := mkWeb3EthOptions {
  providerUrl : string;
  options_returnType : option ValidTypesEnum
}.

(** The fields of the class other than the request manager. *)
Record Web3Eth : Type := mkWeb3Eth {
  _defaultReturnType : ValidTypesEnum
}.

(** [a || b] on an optional member of [ValidTypesEnum] *)
Definition orDefault (a : option ValidTypesEnum) (b : ValidTypesEnum) : ValidTypesEnum :=
  match a with
  | Some t => t
  | None => b
  end.

(** [constructor(options)] *)
Definition constructor (options : Web3EthOptions) : Web3Eth :=
  {| _defaultReturnType := orDefault (options_returnType options) HexString |}.

(** [callOptions?.m] for each member *)
Definition rpcOptions_of (callOptions : option CallOptions) : option Object :=
  match callOptions with
  | Some c => rpcOptions c
  | None => None
  end.

Definition providerCallOptions_of (callOptions : option CallOptions) : JsValue :=
  match callOptions with
  | Some c => providerCallOptions c
  | None => JsUndefined
  end.

Definition subscribe_of (callOptions : option CallOptions) : bool :=
  match callOptions with
  | Some c => subscribe c
  | None => false
  end.

Definition returnType_of (callOptions : option CallOptions) : option ValidTypesEnum :=
  match callOptions with
  | Some c => returnType c
  | None => None
  end.

(** [Web3Eth._isBlockTag]: [Object.values(BlockTags).includes(value)] *)
Definition _isBlockTag (value : JsValue) : bool :=
  match value with
  | JsString s => existsb (String.eqb s) BlockTags
  | _ => false
  end.

(** The request object [{...callOptions?.rpcOptions, method, params}] *)
Definition requestObject (method : string) (params : list JsValue)
    (callOptions : option CallOptions) : Object :=
  setProp (setProp (spread (rpcOptions_of callOptions)) "method" (JsString method))
    "params" (JsArray params).

(** The tuple bound to [requestParameters] in every method *)
Definition RequestParameters : Type := string * list JsValue * option CallOptions.

(** What a method resolves to: the response of [send], with or without a
    normalized [result], or whatever [subscribe] resolved to. *)
Inductive Returned : Type :=
| RpcResult (response : Object)
| Subscription (subscription : JsValue).

(** [f(...requestParameters)] *)
Definition spreadArgs {A} (f : string -> list JsValue -> option CallOptions -> A)
    (requestParameters : RequestParameters) : A :=
  let '(method, params, callOptions) := requestParameters in
  f method params callOptions.

(** The public methods with their arguments *)
Inductive Operation : Type :=
| GetClientVersion
| GetSha3 (data : string)
| GetNetworkVersion
| GetNetworkListening
| GetNetworkPeerCount
| GetProtocolVersion
| GetSyncing
| GetCoinbase
| GetMining
| GetHashRate
| GetGasPrice
| GetAccounts
| GetBlockNumber
| GetBalance (address : string) (blockIdentifier : JsValue)
| GetStorageAt (address : string) (storagePosition : JsValue) (blockIdentifier : JsValue)
| GetTransactionCount (address : string) (blockIdentifier : JsValue)
| GetBlockTransactionCountByHash (blockHash : string)
| GetBlockTransactionCountByNumber (blockIdentifier : JsValue)
| GetUncleCountByBlockHash (blockHash : string)
| GetUncleCountByBlockNumber (blockIdentifier : JsValue)
| GetCode (address : string) (blockIdentifier : JsValue)
| Sign (address : string) (message' : string)
| SignTransaction (transaction : Object)
| SendTransaction (transaction : Object)
| SendRawTransaction (rawTransaction : string)
| Call (transaction : Object)
| EstimateGas (transaction : Object)
| GetBlockByHash (blockHash : string) (returnFullTxs : bool)
| GetBlockByNumber (blockIdentifier : JsValue) (returnFullTxs : bool)
| GetTransactionByHash (txHash : string)
| GetTransactionByBlockHashAndIndex (blockHash : string) (transactionIndex : JsValue)
| GetTransactionByBlockNumberAndIndex (blockIdentifier : JsValue) (transactionIndex : JsValue)
| GetTransactionReceipt (txHash : string)
| GetUncleByBlockHashAndIndex (blockHash : string) (uncleIndex : JsValue)
| GetUncleByBlockNumberAndIndex (blockIdentifier : JsValue) (uncleIndex : JsValue)
| GetCompilers
| CompileSolidity (sourceCode : string)
| CompileLLL (sourceCode : string)
| CompileSerpent (sourceCode : string)
| NewFilter (filter : Object)
| NewBlockFilter
| NewPendingTransactionFilter
| UninstallFilter (filterId : JsValue)
| GetFilterChanges (filterId : JsValue)
| GetFilterLogs (filterId : JsValue)
| GetLogs (filter : Object)
| GetWork
| SubmitWork (nonce : JsValue) (powHash : string) (digest : string)
| SubmitHashRate (hashRate : JsValue) (clientId : JsValue).

(** ** The class *)

Section Web3Eth.

(** [formatInput(input, byteLength?)], [formatOutput(output, type)] and
    [formatRpcResultArray(result, keys, type)] of web3-utils: synchronous,
    and they may throw. *)
Variable formatInput : JsValue -> option N -> Completion JsValue.
Variable formatOutput : JsValue -> ValidTypesEnum -> Completion JsValue.
Variable formatRpcResultArray :
  JsValue -> list string -> ValidTypesEnum -> Completion JsValue.

(** How the request manager answers: [send] resolves to a response object
    or rejects, [subscribe] resolves to a subscription or rejects. *)
Variable requestManager_send : Object -> JsValue -> Completion Object.
Variable requestManager_subscribe : Object -> JsValue -> Completion JsValue.

Variable this : Web3Eth.

Definition _send (method : string) (params : list JsValue)
    (callOptions : option CallOptions) : Async Object :=
  fun w =>
    let request := requestObject method params callOptions in
    let options := providerCallOptions_of callOptions in
    (requestManager_send request options,
     (w ++ [ViaSend request options])%list).

Definition _subscribe (method : string) (params : list JsValue)
    (callOptions : option CallOptions) : Async JsValue :=
  fun w =>
    let request := requestObject method params callOptions in
    let options := providerCallOptions_of callOptions in
    (requestManager_subscribe request options,
     (w ++ [ViaSubscribe request options])%list).

(** [getClientVersion]: returns the current client version *)
Definition getClientVersion (callOptions : option CallOptions)
    : Async Returned :=
  tryCatch
    (let requestParameters : RequestParameters :=
       ("web3_clientVersion", [], callOptions) in
     if subscribe_of callOptions
     then subscription <- spreadArgs _subscribe requestParameters ;;
          ret (Subscription subscription)
     else response <- spreadArgs _send requestParameters ;;
          ret (RpcResult response))
    (fun error =>
       throw (Error ("Error getting client version: "
                     ++ message error))).

(** [getSha3]: returns Keccak-256 (not the standardized SHA3-256) of the given
    data *)
Definition getSha3 (data : string) (callOptions : option CallOptions)
    : Async Returned :=
  tryCatch
    (let requestParameters : RequestParameters :=
       ("web3_clientVersion", [JsString data], callOptions) in
     if subscribe_of callOptions
     then subscription <- spreadArgs _subscribe requestParameters ;;
          ret (Subscription subscription)
     else response <- spreadArgs _send requestParameters ;;
          ret (RpcResult response))
    (fun error => throw (Error ("Error getting sha3 hash: " ++ message error))).

(** [getNetworkVersion]: returns the current network version *)
Definition getNetworkVersion (callOptions : option CallOptions)
    : Async Returned :=
  tryCatch
    (let requestParameters : RequestParameters :=
       ("net_version", [], callOptions) in
     if subscribe_of callOptions
     then subscription <- spreadArgs _subscribe requestParameters ;;
          ret (Subscription subscription)
     else
       response <- spreadArgs _send requestParameters ;;
       result <- lift (formatOutput (getProp response "result")
                   (orDefault (returnType_of callOptions) (_defaultReturnType this))) ;;
       ret (RpcResult (setProp response "result" result)))
    (fun error =>
       throw (Error ("Error getting network version: "
                     ++ message error))).

(** [getNetworkListening]: returns true if client is actively listening for
    network connections *)
Definition getNetworkListening (callOptions : option CallOptions)
    : Async Returned :=
  tryCatch
    (let requestParameters : RequestParameters :=
       ("net_listening", [], callOptions) in
     if subscribe_of callOptions
     then subscription <- spreadArgs _subscribe requestParameters ;;
          ret (Subscription subscription)
     else response <- spreadArgs _send requestParameters ;;
          ret (RpcResult response))
    (fun error =>
       throw (Error ("Error getting network listening: "
                     ++ message error))).

(** [getNetworkPeerCount]: returns number of peers currently connected to the
    client *)
Definition getNetworkPeerCount (callOptions : option CallOptions)
    : Async Returned :=
  tryCatch
    (let requestParameters : RequestParameters :=
       ("net_peerCount", [], callOptions) in
     if subscribe_of callOptions
     then subscription <- spreadArgs _subscribe requestParameters ;;
          ret (Subscription subscription)
     else
       response <- spreadArgs _send requestParameters ;;
       result <- lift (formatOutput (getProp response "result")
                   (orDefault (returnType_of callOptions) (_defaultReturnType this))) ;;
       ret (RpcResult (setProp response "result" result)))
    (fun error =>
       throw (Error ("Error getting network peer count: "
                     ++ message error))).

(** [getProtocolVersion]: returns the current ethereum protocol version *)
Definition getProtocolVersion (callOptions : option CallOptions)
    : Async Returned :=
  tryCatch
    (let requestParameters : RequestParameters :=
       ("eth_protocolVersion", [], callOptions) in
     if subscribe_of callOptions
     then subscription <- spreadArgs _subscribe requestParameters ;;
          ret (Subscription subscription)
     else
       response <- spreadArgs _send requestParameters ;;
       result <- lift (formatOutput (getProp response "result")
                   (orDefault (returnType_of callOptions) (_defaultReturnType this))) ;;
       ret (RpcResult (setProp response "result" result)))
    (fun error =>
       throw (Error ("Error getting protocol version: "
                     ++ message error))).

(** [getSyncing]: returns an object with data about the sync status or false
    when not syncing *)
Definition getSyncing (callOptions : option CallOptions) : Async Returned :=
  tryCatch
    (let requestParameters : RequestParameters :=
       ("eth_syncing", [], callOptions) in
     if subscribe_of callOptions
     then subscription <- spreadArgs _subscribe requestParameters ;;
          ret (Subscription subscription)
     else
       response <- spreadArgs _send requestParameters ;;
       result <- lift (formatRpcResultArray (getProp response "result")
                   ["startingBlock"; "currentBlock"; "highestBlock"]
                   (_defaultReturnType this)) ;;
       ret (RpcResult (setProp response "result" result)))
    (fun error =>
       throw (Error ("Error getting syncing status: "
                     ++ message error))).

(** [getCoinbase]: returns the client's coinbase address *)
Definition getCoinbase (callOptions : option CallOptions) : Async Returned :=
  tryCatch
    (let requestParameters : RequestParameters :=
       ("eth_coinbase", [], callOptions) in
     if subscribe_of callOptions
     then subscription <- spreadArgs _subscribe requestParameters ;;
          ret (Subscription subscription)
     else response <- spreadArgs _send requestParameters ;;
          ret (RpcResult response))
    (fun error =>
       throw (Error ("Error getting coinbase address: "
                     ++ message error))).

(** [getMining]: returns true if client is actively mining new blocks *)
Definition getMining (callOptions : option CallOptions) : Async Returned :=
  tryCatch
    (let requestParameters : RequestParameters :=
       ("eth_mining", [], callOptions) in
     if subscribe_of callOptions
     then subscription <- spreadArgs _subscribe requestParameters ;;
          ret (Subscription subscription)
     else response <- spreadArgs _send requestParameters ;;
          ret (RpcResult response))
    (fun error =>
       throw (Error ("Error getting mining status: "
                     ++ message error))).

(** [getHashRate]: returns the number of hashes per second that the node is
    mining with *)
Definition getHashRate (callOptions : option CallOptions) : Async Returned :=
  tryCatch
    (let requestParameters : RequestParameters :=
       ("eth_hashrate", [], callOptions) in
     if subscribe_of callOptions
     then subscription <- spreadArgs _subscribe requestParameters ;;
          ret (Subscription subscription)
     else
       response <- spreadArgs _send requestParameters ;;
       result <- lift (formatOutput (getProp response "result")
                   (orDefault (returnType_of callOptions) (_defaultReturnType this))) ;;
       ret (RpcResult (setProp response "result" result)))
    (fun error => throw (Error ("Error getting hash rate: " ++ message error))).

(** [getGasPrice]: returns the current price per gas in wei *)
Definition getGasPrice (callOptions : option CallOptions) : Async Returned :=
  tryCatch
    (let requestParameters : RequestParameters :=
       ("eth_gasPrice", [], callOptions) in
     if subscribe_of callOptions
     then subscription <- spreadArgs _subscribe requestParameters ;;
          ret (Subscription subscription)
     else
       response <- spreadArgs _send requestParameters ;;
       result <- lift (formatOutput (getProp response "result")
                   (orDefault (returnType_of callOptions) (_defaultReturnType this))) ;;
       ret (RpcResult (setProp response "result" result)))
    (fun error => throw (Error ("Error getting gas price: " ++ message error))).

(** [getAccounts]: returns a list of addresses owned by client. *)
Definition getAccounts (callOptions : option CallOptions) : Async Returned :=
  tryCatch
    (let requestParameters : RequestParameters :=
       ("eth_accounts", [], callOptions) in
     if subscribe_of callOptions
     then subscription <- spreadArgs _subscribe requestParameters ;;
          ret (Subscription subscription)
     else response <- spreadArgs _send requestParameters ;;
          ret (RpcResult response))
    (fun error => throw (Error ("Error getting accounts: " ++ message error))).

(** [getBlockNumber]: returns the number of most recent block *)
Definition getBlockNumber (callOptions : option CallOptions)
    : Async Returned :=
  tryCatch
    (let requestParameters : RequestParameters :=
       ("eth_blockNumber", [], callOptions) in
     if subscribe_of callOptions
     then subscription <- spreadArgs _subscribe requestParameters ;;
          ret (Subscription subscription)
     else
       response <- spreadArgs _send requestParameters ;;
       result <- lift (formatOutput (getProp response "result")
                   (orDefault (returnType_of callOptions) (_defaultReturnType this))) ;;
       ret (RpcResult (setProp response "result" result)))
    (fun error =>
       throw (Error ("Error getting block number: "
                     ++ message error))).

(** [getBalance]: returns the balance of the account of given address *)
Definition getBalance (address : string) (blockIdentifier : JsValue)
    (callOptions : option CallOptions) : Async Returned :=
  tryCatch
    (block <- (if _isBlockTag blockIdentifier
                then ret blockIdentifier
                else lift (formatInput blockIdentifier None)) ;;
     let requestParameters : RequestParameters :=
       ("net_version", [JsString address; block], callOptions) in
     if subscribe_of callOptions
     then subscription <- spreadArgs _subscribe requestParameters ;;
          ret (Subscription subscription)
     else
       response <- spreadArgs _send requestParameters ;;
       result <- lift (formatOutput (getProp response "result")
                   (orDefault (returnType_of callOptions) (_defaultReturnType this))) ;;
       ret (RpcResult (setProp response "result" result)))
    (fun error => throw (Error ("Error getting balance: " ++ message error))).

(** [getStorageAt]: returns the value from a storage position at a given
    address *)
Definition getStorageAt (address : string) (storagePosition : JsValue)
    (blockIdentifier : JsValue) (callOptions : option CallOptions)
    : Async Returned :=
  tryCatch
    (position <- lift (formatInput storagePosition None) ;;
     block <- lift (formatInput blockIdentifier None) ;;
     let requestParameters : RequestParameters :=
       ("eth_getStorageAt", [JsString address; position; block], callOptions) in
     if subscribe_of callOptions
     then subscription <- spreadArgs _subscribe requestParameters ;;
          ret (Subscription subscription)
     else
       response <- spreadArgs _send requestParameters ;;
       result <- lift (formatOutput (getProp response "result")
                   (orDefault (returnType_of callOptions) (_defaultReturnType this))) ;;
       ret (RpcResult (setProp response "result" result)))
    (fun error =>
       throw (Error ("Error getting storage value: "
                     ++ message error))).

(** [getTransactionCount]: returns the number of transactions sent from an
    address *)
Definition getTransactionCount (address : string) (blockIdentifier : JsValue)
    (callOptions : option CallOptions) : Async Returned :=
  tryCatch
    (block <- lift (formatInput blockIdentifier None) ;;
     let requestParameters : RequestParameters :=
       ("eth_getTransactionCount", [JsString address; block], callOptions) in
     if subscribe_of callOptions
     then subscription <- spreadArgs _subscribe requestParameters ;;
          ret (Subscription subscription)
     else
       response <- spreadArgs _send requestParameters ;;
       result <- lift (formatOutput (getProp response "result")
                   (orDefault (returnType_of callOptions) (_defaultReturnType this))) ;;
       ret (RpcResult (setProp response "result" result)))
    (fun error =>
       throw (Error ("Error getting transaction count: "
                     ++ message error))).

(** [getBlockTransactionCountByHash]: returns the number of transactions in a
    block from a block matching the given block hash *)
Definition getBlockTransactionCountByHash (blockHash : string)
    (callOptions : option CallOptions) : Async Returned :=
  tryCatch
    (let requestParameters : RequestParameters :=
       ("eth_getBlockTransactionCountByHash",
        [JsString blockHash],
        callOptions) in
     if subscribe_of callOptions
     then subscription <- spreadArgs _subscribe requestParameters ;;
          ret (Subscription subscription)
     else
       response <- spreadArgs _send requestParameters ;;
       result <- lift (formatOutput (getProp response "result")
                   (orDefault (returnType_of callOptions) (_defaultReturnType this))) ;;
       ret (RpcResult (setProp response "result" result)))
    (fun error =>
       throw (Error ("Error getting transaction count for block by hash: "
                     ++ message error))).

(** [getBlockTransactionCountByNumber]: returns the number of transactions in
    a block from a block matching the given block number *)
Definition getBlockTransactionCountByNumber (blockIdentifier : JsValue)
    (callOptions : option CallOptions) : Async Returned :=
  tryCatch
    (block <- lift (formatInput blockIdentifier None) ;;
     let requestParameters : RequestParameters :=
       ("eth_getBlockTransactionCountByNumber", [block], callOptions) in
     if subscribe_of callOptions
     then subscription <- spreadArgs _subscribe requestParameters ;;
          ret (Subscription subscription)
     else
       response <- spreadArgs _send requestParameters ;;
       result <- lift (formatOutput (getProp response "result")
                   (orDefault (returnType_of callOptions) (_defaultReturnType this))) ;;
       ret (RpcResult (setProp response "result" result)))
    (fun error =>
       throw (Error ("Error getting transaction count for block by number: "
                     ++ message error))).

(** [getUncleCountByBlockHash]: returns the number of uncles in a block from a
    block matching the given block hash *)
Definition getUncleCountByBlockHash (blockHash : string)
    (callOptions : option CallOptions) : Async Returned :=
  tryCatch
    (let requestParameters : RequestParameters :=
       ("eth_getUncleCountByBlockHash", [JsString blockHash], callOptions) in
     if subscribe_of callOptions
     then subscription <- spreadArgs _subscribe requestParameters ;;
          ret (Subscription subscription)
     else
       response <- spreadArgs _send requestParameters ;;
       result <- lift (formatOutput (getProp response "result")
                   (orDefault (returnType_of callOptions) (_defaultReturnType this))) ;;
       ret (RpcResult (setProp response "result" result)))
    (fun error =>
       throw (Error ("Error getting uncle count for block by hash: "
                     ++ message error))).

(** [getUncleCountByBlockNumber]: returns the number of uncles in a block from
    a block matching the given block number *)
Definition getUncleCountByBlockNumber (blockIdentifier : JsValue)
    (callOptions : option CallOptions) : Async Returned :=
  tryCatch
    (block <- lift (formatInput blockIdentifier None) ;;
     let requestParameters : RequestParameters :=
       ("eth_getUncleCountByBlockNumber", [block], callOptions) in
     if subscribe_of callOptions
     then subscription <- spreadArgs _subscribe requestParameters ;;
          ret (Subscription subscription)
     else
       response <- spreadArgs _send requestParameters ;;
       result <- lift (formatOutput (getProp response "result")
                   (orDefault (returnType_of callOptions) (_defaultReturnType this))) ;;
       ret (RpcResult (setProp response "result" result)))
    (fun error =>
       throw (Error ("Error getting uncle count for block by number: "
                     ++ message error))).

(** [getCode]: returns code at a given address *)
Definition getCode (address : string) (blockIdentifier : JsValue)
    (callOptions : option CallOptions) : Async Returned :=
  tryCatch
    (block <- lift (formatInput blockIdentifier None) ;;
     let requestParameters : RequestParameters :=
       ("eth_getCode", [JsString address; block], callOptions) in
     if subscribe_of callOptions
     then subscription <- spreadArgs _subscribe requestParameters ;;
          ret (Subscription subscription)
     else response <- spreadArgs _send requestParameters ;;
          ret (RpcResult response))
    (fun error =>
       throw (Error ("Error getting code at address: "
                     ++ message error))).

(** [sign]: calculates an Ethereum specific signature *)
Definition sign (address : string) (message' : string)
    (callOptions : option CallOptions) : Async Returned :=
  tryCatch
    (let requestParameters : RequestParameters :=
       ("eth_sign", [JsString address; JsString message'], callOptions) in
     if subscribe_of callOptions
     then subscription <- spreadArgs _subscribe requestParameters ;;
          ret (Subscription subscription)
     else response <- spreadArgs _send requestParameters ;;
          ret (RpcResult response))
    (fun error => throw (Error ("Error signing message: " ++ message error))).

(** [signTransaction]: signs a transaction that can be submitted to the
    network at a later time using with sendRawTransaction *)
Definition signTransaction (transaction : Object)
    (callOptions : option CallOptions) : Async Returned :=
  tryCatch
    (gas <- (if truthy (getProp transaction "gas")
              then lift (formatInput (getProp transaction "gas") None)
              else ret JsUndefined) ;;
     gasPrice <- (if truthy (getProp transaction "gasPrice")
                   then lift (formatInput (getProp transaction "gasPrice") None)
                   else ret JsUndefined) ;;
     value <- (if truthy (getProp transaction "value")
                then lift (formatInput (getProp transaction "value") None)
                else ret JsUndefined) ;;
     nonce <- (if truthy (getProp transaction "nonce")
                then lift (formatInput (getProp transaction "nonce") None)
                else ret JsUndefined) ;;
     let requestParameters : RequestParameters :=
       ("eth_signTransaction",
        [JsObject
           (setProp (setProp (setProp (setProp transaction
              "gas" gas) "gasPrice" gasPrice) "value" value) "nonce" nonce)],
        callOptions) in
     if subscribe_of callOptions
     then subscription <- spreadArgs _subscribe requestParameters ;;
          ret (Subscription subscription)
     else response <- spreadArgs _send requestParameters ;;
          ret (RpcResult response))
    (fun error =>
       throw (Error ("Error signing transaction: "
                     ++ message error))).

(** [sendTransaction]: submits a transaction object to the provider to be sign
    and sent to the network *)
Definition sendTransaction (transaction : Object)
    (callOptions : option CallOptions) : Async Returned :=
  tryCatch
    (gas <- (if truthy (getProp transaction "gas")
              then lift (formatInput (getProp transaction "gas") None)
              else ret JsUndefined) ;;
     gasPrice <- (if truthy (getProp transaction "gasPrice")
                   then lift (formatInput (getProp transaction "gasPrice") None)
                   else ret JsUndefined) ;;
     value <- (if truthy (getProp transaction "value")
                then lift (formatInput (getProp transaction "value") None)
                else ret JsUndefined) ;;
     nonce <- (if truthy (getProp transaction "nonce")
                then lift (formatInput (getProp transaction "nonce") None)
                else ret JsUndefined) ;;
     let requestParameters : RequestParameters :=
       ("eth_sendTransaction",
        [JsObject
           (setProp (setProp (setProp (setProp transaction
              "gas" gas) "gasPrice" gasPrice) "value" value) "nonce" nonce)],
        callOptions) in
     if subscribe_of callOptions
     then subscription <- spreadArgs _subscribe requestParameters ;;
          ret (Subscription subscription)
     else response <- spreadArgs _send requestParameters ;;
          ret (RpcResult response))
    (fun error =>
       throw (Error ("Error sending transaction: "
                     ++ message error))).

(** [sendRawTransaction]: submits a previously signed transaction object to
    the network *)
Definition sendRawTransaction (rawTransaction : string)
    (callOptions : option CallOptions) : Async Returned :=
  tryCatch
    (let requestParameters : RequestParameters :=
       ("eth_sendRawTransaction", [JsString rawTransaction], callOptions) in
     if subscribe_of callOptions
     then subscription <- spreadArgs _subscribe requestParameters ;;
          ret (Subscription subscription)
     else response <- spreadArgs _send requestParameters ;;
          ret (RpcResult response))
    (fun error =>
       throw (Error ("Error sending raw transaction: "
                     ++ message error))).

(** [call]: executes a new message call immediately without creating a
    transaction on the block chain *)
Definition call (transaction : Object) (callOptions : option CallOptions)
    : Async Returned :=
  tryCatch
    (gas <- (if truthy (getProp transaction "gas")
              then lift (formatInput (getProp transaction "gas") None)
              else ret JsUndefined) ;;
     gasPrice <- (if truthy (getProp transaction "gasPrice")
                   then lift (formatInput (getProp transaction "gasPrice") None)
                   else ret JsUndefined) ;;
     value <- (if truthy (getProp transaction "value")
                then lift (formatInput (getProp transaction "value") None)
                else ret JsUndefined) ;;
     nonce <- (if truthy (getProp transaction "nonce")
                then lift (formatInput (getProp transaction "nonce") None)
                else ret JsUndefined) ;;
     let requestParameters : RequestParameters :=
       ("eth_call",
        [JsObject
           (setProp (setProp (setProp (setProp transaction
              "gas" gas) "gasPrice" gasPrice) "value" value) "nonce" nonce)],
        callOptions) in
     if subscribe_of callOptions
     then subscription <- spreadArgs _subscribe requestParameters ;;
          ret (Subscription subscription)
     else response <- spreadArgs _send requestParameters ;;
          ret (RpcResult response))
    (fun error =>
       throw (Error ("Error sending call transaction: "
                     ++ message error))).

(** [estimateGas]: generates and returns an estimate of how much gas is
    necessary to allow the transaction to complete *)
Definition estimateGas (transaction : Object)
    (callOptions : option CallOptions) : Async Returned :=
  tryCatch
    (gas <- (if truthy (getProp transaction "gas")
              then lift (formatInput (getProp transaction "gas") None)
              else ret JsUndefined) ;;
     gasPrice <- (if truthy (getProp transaction "gasPrice")
                   then lift (formatInput (getProp transaction "gasPrice") None)
                   else ret JsUndefined) ;;
     value <- (if truthy (getProp transaction "value")
                then lift (formatInput (getProp transaction "value") None)
                else ret JsUndefined) ;;
     nonce <- (if truthy (getProp transaction "nonce")
                then lift (formatInput (getProp transaction "nonce") None)
                else ret JsUndefined) ;;
     let requestParameters : RequestParameters :=
       ("eth_estimateGas",
        [JsObject
           (setProp (setProp (setProp (setProp transaction
              "gas" gas) "gasPrice" gasPrice) "value" value) "nonce" nonce)],
        callOptions) in
     if subscribe_of callOptions
     then subscription <- spreadArgs _subscribe requestParameters ;;
          ret (Subscription subscription)
     else
       response <- spreadArgs _send requestParameters ;;
       result <- lift (formatOutput (getProp response "result")
                   (orDefault (returnType_of callOptions) (_defaultReturnType this))) ;;
       ret (RpcResult (setProp response "result" result)))
    (fun error =>
       throw (Error ("Error getting gas estimate: "
                     ++ message error))).

(** [getBlockByHash]: returns information about a block by hash *)
Definition getBlockByHash (blockHash : string) (returnFullTxs : bool)
    (callOptions : option CallOptions) : Async Returned :=
  tryCatch
    (let requestParameters : RequestParameters :=
       ("eth_getBlockByHash",
        [JsString blockHash;
         JsBool returnFullTxs],
        callOptions) in
     if subscribe_of callOptions
     then subscription <- spreadArgs _subscribe requestParameters ;;
          ret (Subscription subscription)
     else
       response <- spreadArgs _send requestParameters ;;
       result <- lift (formatRpcResultArray (getProp response "result")
                   ["number"; "nonce"; "difficulty"; "totalDifficulty";
                    "size"; "gasLimit"; "gasUsed"; "timestamp"]
                   (orDefault (returnType_of callOptions) (_defaultReturnType this))) ;;
       ret (RpcResult (setProp response "result" result)))
    (fun error =>
       throw (Error ("Error getting block by hash: "
                     ++ message error))).

(** [getBlockByNumber]: returns information about a block by number *)
Definition getBlockByNumber (blockIdentifier : JsValue) (returnFullTxs : bool)
    (callOptions : option CallOptions) : Async Returned :=
  tryCatch
    (block <- lift (formatInput blockIdentifier None) ;;
     let requestParameters : RequestParameters :=
       ("eth_getBlockByNumber", [block; JsBool returnFullTxs], callOptions) in
     if subscribe_of callOptions
     then subscription <- spreadArgs _subscribe requestParameters ;;
          ret (Subscription subscription)
     else
       response <- spreadArgs _send requestParameters ;;
       result <- lift (formatRpcResultArray (getProp response "result")
                   ["number"; "nonce"; "difficulty"; "totalDifficulty";
                    "size"; "gasLimit"; "gasUsed"; "timestamp"]
                   (orDefault (returnType_of callOptions) (_defaultReturnType this))) ;;
       ret (RpcResult (setProp response "result" result)))
    (fun error =>
       throw (Error ("Error getting block by number: "
                     ++ message error))).

(** [getTransactionByHash]: returns the information about a transaction
    requested by transaction hash *)
Definition getTransactionByHash (txHash : string)
    (callOptions : option CallOptions) : Async Returned :=
  tryCatch
    (let requestParameters : RequestParameters :=
       ("eth_getTransactionByHash", [JsString txHash], callOptions) in
     if subscribe_of callOptions
     then subscription <- spreadArgs _subscribe requestParameters ;;
          ret (Subscription subscription)
     else
       response <- spreadArgs _send requestParameters ;;
       result <- lift (formatRpcResultArray (getProp response "result")
                   ["blockNumber"; "gas"; "gasPrice"; "nonce";
                    "transactionIndex"; "value"; "v"]
                   (orDefault (returnType_of callOptions) (_defaultReturnType this))) ;;
       ret (RpcResult (setProp response "result" result)))
    (fun error =>
       throw (Error ("Error getting transaction by hash: "
                     ++ message error))).

(** [getTransactionByBlockHashAndIndex]: returns information about a
    transaction by block hash and transaction index position *)
Definition getTransactionByBlockHashAndIndex (blockHash : string)
    (transactionIndex : JsValue) (callOptions : option CallOptions)
    : Async Returned :=
  tryCatch
    (index <- lift (formatInput transactionIndex None) ;;
     let requestParameters : RequestParameters :=
       ("eth_getTransactionByBlockHashAndIndex",
        [JsString blockHash;
         index],
        callOptions) in
     if subscribe_of callOptions
     then subscription <- spreadArgs _subscribe requestParameters ;;
          ret (Subscription subscription)
     else
       response <- spreadArgs _send requestParameters ;;
       result <- lift (formatRpcResultArray (getProp response "result")
                   ["blockNumber"; "gas"; "gasPrice"; "nonce";
                    "transactionIndex"; "value"; "v"]
                   (orDefault (returnType_of callOptions) (_defaultReturnType this))) ;;
       ret (RpcResult (setProp response "result" result)))
    (fun error =>
       throw (Error ("Error getting transaction by block hash and index: "
                     ++ message error))).

(** [getTransactionByBlockNumberAndIndex]: returns information about a
    transaction by block number and transaction index position *)
Definition getTransactionByBlockNumberAndIndex (blockIdentifier : JsValue)
    (transactionIndex : JsValue) (callOptions : option CallOptions)
    : Async Returned :=
  tryCatch
    (block <- lift (formatInput blockIdentifier None) ;;
     index <- lift (formatInput transactionIndex None) ;;
     let requestParameters : RequestParameters :=
       ("eth_getTransactionByBlockNumberAndIndex",
        [block;
         index],
        callOptions) in
     if subscribe_of callOptions
     then subscription <- spreadArgs _subscribe requestParameters ;;
          ret (Subscription subscription)
     else
       response <- spreadArgs _send requestParameters ;;
       result <- lift (formatRpcResultArray (getProp response "result")
                   ["blockNumber"; "gas"; "gasPrice"; "nonce";
                    "transactionIndex"; "value"; "v"]
                   (orDefault (returnType_of callOptions) (_defaultReturnType this))) ;;
       ret (RpcResult (setProp response "result" result)))
    (fun error =>
       throw (Error ("Error getting transaction by block number and index: "
                     ++ message error))).

(** [getTransactionReceipt]: returns the receipt of a transaction by
    transaction hash *)
Definition getTransactionReceipt (txHash : string)
    (callOptions : option CallOptions) : Async Returned :=
  tryCatch
    (let requestParameters : RequestParameters :=
       ("eth_getTransactionReceipt", [JsString txHash], callOptions) in
     if subscribe_of callOptions
     then subscription <- spreadArgs _subscribe requestParameters ;;
          ret (Subscription subscription)
     else
       response <- spreadArgs _send requestParameters ;;
       result <- lift (formatRpcResultArray (getProp response "result")
                   ["blockNumber"; "cumulativeGasUsed"; "gasUsed"]
                   (orDefault (returnType_of callOptions) (_defaultReturnType this))) ;;
       ret (RpcResult (setProp response "result" result)))
    (fun error =>
       throw (Error ("Error getting transaction reciept: "
                     ++ message error))).

(** [getUncleByBlockHashAndIndex]: returns information about a uncle of a
    block by hash and uncle index position *)
Definition getUncleByBlockHashAndIndex (blockHash : string)
    (uncleIndex : JsValue) (callOptions : option CallOptions)
    : Async Returned :=
  tryCatch
    (index <- lift (formatInput uncleIndex None) ;;
     let requestParameters : RequestParameters :=
       ("eth_getUncleByBlockHashAndIndex",
        [JsString blockHash;
         index],
        callOptions) in
     if subscribe_of callOptions
     then subscription <- spreadArgs _subscribe requestParameters ;;
          ret (Subscription subscription)
     else
       response <- spreadArgs _send requestParameters ;;
       result <- lift (formatRpcResultArray (getProp response "result")
                   ["number"; "nonce"; "difficulty"; "totalDifficulty";
                    "size"; "gasLimit"; "gasUsed"; "timestamp"]
                   (orDefault (returnType_of callOptions) (_defaultReturnType this))) ;;
       ret (RpcResult (setProp response "result" result)))
    (fun error =>
       throw (Error ("Error getting uncle by block hash and index: "
                     ++ message error))).

(** [getUncleByBlockNumberAndIndex]: returns information about a uncle of a
    block by number and uncle index position *)
Definition getUncleByBlockNumberAndIndex (blockIdentifier : JsValue)
    (uncleIndex : JsValue) (callOptions : option CallOptions)
    : Async Returned :=
  tryCatch
    (block <- lift (formatInput blockIdentifier None) ;;
     index <- lift (formatInput uncleIndex None) ;;
     let requestParameters : RequestParameters :=
       ("eth_getUncleByBlockNumberAndIndex", [block; index], callOptions) in
     if subscribe_of callOptions
     then subscription <- spreadArgs _subscribe requestParameters ;;
          ret (Subscription subscription)
     else
       response <- spreadArgs _send requestParameters ;;
       result <- lift (formatRpcResultArray (getProp response "result")
                   ["number"; "nonce"; "difficulty"; "totalDifficulty";
                    "size"; "gasLimit"; "gasUsed"; "timestamp"]
                   (orDefault (returnType_of callOptions) (_defaultReturnType this))) ;;
       ret (RpcResult (setProp response "result" result)))
    (fun error =>
       throw (Error ("Error getting uncle by block number and index: "
                     ++ message error))).

(** [getCompilers]: returns a list of available compilers in the client *)
Definition getCompilers (callOptions : option CallOptions) : Async Returned :=
  tryCatch
    (let requestParameters : RequestParameters :=
       ("eth_getCompilers", [], callOptions) in
     if subscribe_of callOptions
     then subscription <- spreadArgs _subscribe requestParameters ;;
          ret (Subscription subscription)
     else response <- spreadArgs _send requestParameters ;;
          ret (RpcResult response))
    (fun error => throw (Error ("Error getting compilers: " ++ message error))).

(** [compileSolidity]: returns compiled solidity code *)
Definition compileSolidity (sourceCode : string)
    (callOptions : option CallOptions) : Async Returned :=
  tryCatch
    (let requestParameters : RequestParameters :=
       ("eth_compileSolidity", [JsString sourceCode], callOptions) in
     if subscribe_of callOptions
     then subscription <- spreadArgs _subscribe requestParameters ;;
          ret (Subscription subscription)
     else response <- spreadArgs _send requestParameters ;;
          ret (RpcResult response))
    (fun error =>
       throw (Error ("Error getting compiling solidity code: "
                     ++ message error))).

(** [compileLLL]: returns compiled LLL code *)
Definition compileLLL (sourceCode : string) (callOptions : option CallOptions)
    : Async Returned :=
  tryCatch
    (let requestParameters : RequestParameters :=
       ("eth_compileLLL", [JsString sourceCode], callOptions) in
     if subscribe_of callOptions
     then subscription <- spreadArgs _subscribe requestParameters ;;
          ret (Subscription subscription)
     else response <- spreadArgs _send requestParameters ;;
          ret (RpcResult response))
    (fun error =>
       throw (Error ("Error getting compiling LLL code: "
                     ++ message error))).

(** [compileSerpent]: returns compiled serpent code *)
Definition compileSerpent (sourceCode : string)
    (callOptions : option CallOptions) : Async Returned :=
  tryCatch
    (let requestParameters : RequestParameters :=
       ("eth_compileSerpent", [JsString sourceCode], callOptions) in
     if subscribe_of callOptions
     then subscription <- spreadArgs _subscribe requestParameters ;;
          ret (Subscription subscription)
     else response <- spreadArgs _send requestParameters ;;
          ret (RpcResult response))
    (fun error =>
       throw (Error ("Error getting compiling serpent code: "
                     ++ message error))).

(** [newFilter]: creates a filter object, based on filter options, to notify
    when the state changes (logs) *)
Definition newFilter (filter : Object) (callOptions : option CallOptions)
    : Async Returned :=
  tryCatch
    (fromBlock <- (if truthy (getProp filter "fromBlock")
                    then lift (formatInput (getProp filter "fromBlock") None)
                    else ret JsUndefined) ;;
     toBlock <- (if truthy (getProp filter "toBlock")
                  then lift (formatInput (getProp filter "toBlock") None)
                  else ret JsUndefined) ;;
     let requestParameters : RequestParameters :=
       ("eth_newFilter",
        [JsObject (setProp (setProp filter "fromBlock" fromBlock) "toBlock" toBlock)],
        callOptions) in
     if subscribe_of callOptions
     then subscription <- spreadArgs _subscribe requestParameters ;;
          ret (Subscription subscription)
     else
       response <- spreadArgs _send requestParameters ;;
       result <- lift (formatOutput (getProp response "result")
                   (orDefault (returnType_of callOptions) (_defaultReturnType this))) ;;
       ret (RpcResult (setProp response "result" result)))
    (fun error => throw (Error ("Error creating filter: " ++ message error))).

(** [newBlockFilter]: creates a filter in the node, to notify when a new block
    arrives *)
Definition newBlockFilter (callOptions : option CallOptions)
    : Async Returned :=
  tryCatch
    (let requestParameters : RequestParameters :=
       ("eth_newBlockFilter", [], callOptions) in
     if subscribe_of callOptions
     then subscription <- spreadArgs _subscribe requestParameters ;;
          ret (Subscription subscription)
     else
       response <- spreadArgs _send requestParameters ;;
       result <- lift (formatOutput (getProp response "result")
                   (orDefault (returnType_of callOptions) (_defaultReturnType this))) ;;
       ret (RpcResult (setProp response "result" result)))
    (fun error =>
       throw (Error ("Error creating block filter: "
                     ++ message error))).

(** [newPendingTransactionFilter]: creates a filter in the node, to notify
    when new pending transactions arrive *)
Definition newPendingTransactionFilter (callOptions : option CallOptions)
    : Async Returned :=
  tryCatch
    (let requestParameters : RequestParameters :=
       ("eth_newPendingTransactionFilter", [], callOptions) in
     if subscribe_of callOptions
     then subscription <- spreadArgs _subscribe requestParameters ;;
          ret (Subscription subscription)
     else
       response <- spreadArgs _send requestParameters ;;
       result <- lift (formatOutput (getProp response "result")
                   (orDefault (returnType_of callOptions) (_defaultReturnType this))) ;;
       ret (RpcResult (setProp response "result" result)))
    (fun error =>
       throw (Error ("Error creating pending transaction filter: "
                     ++ message error))).

(** [uninstallFilter]: uninstalls a filter with given id. Should always be
    called when watch is no longer needed *)
Definition uninstallFilter (filterId : JsValue)
    (callOptions : option CallOptions) : Async Returned :=
  tryCatch
    (id <- lift (formatInput filterId None) ;;
     let requestParameters : RequestParameters :=
       ("eth_uninstallFilter", [id], callOptions) in
     if subscribe_of callOptions
     then subscription <- spreadArgs _subscribe requestParameters ;;
          ret (Subscription subscription)
     else response <- spreadArgs _send requestParameters ;;
          ret (RpcResult response))
    (fun error =>
       throw (Error ("Error uninstalling filter: "
                     ++ message error))).

(** [getFilterChanges]: polling method for a filter, which returns an array of
    logs which occurred since last poll *)
Definition getFilterChanges (filterId : JsValue)
    (callOptions : option CallOptions) : Async Returned :=
  tryCatch
    (id <- lift (formatInput filterId None) ;;
     let requestParameters : RequestParameters :=
       ("eth_getFilterChanges", [id], callOptions) in
     if subscribe_of callOptions
     then subscription <- spreadArgs _subscribe requestParameters ;;
          ret (Subscription subscription)
     else
       response <- spreadArgs _send requestParameters ;;
       result <- lift (formatRpcResultArray (getProp response "result")
                   ["logIndex"; "transactionIndex"; "blockNumber"]
                   (orDefault (returnType_of callOptions) (_defaultReturnType this))) ;;
       ret (RpcResult (setProp response "result" result)))
    (fun error =>
       throw (Error ("Error getting filter changes: "
                     ++ message error))).

(** [getFilterLogs]: returns an array of all logs matching filter with given
    id *)
Definition getFilterLogs (filterId : JsValue)
    (callOptions : option CallOptions) : Async Returned :=
  tryCatch
    (id <- lift (formatInput filterId None) ;;
     let requestParameters : RequestParameters :=
       ("eth_getFilterLogs", [id], callOptions) in
     if subscribe_of callOptions
     then subscription <- spreadArgs _subscribe requestParameters ;;
          ret (Subscription subscription)
     else
       response <- spreadArgs _send requestParameters ;;
       result <- lift (formatRpcResultArray (getProp response "result")
                   ["logIndex"; "transactionIndex"; "blockNumber"]
                   (orDefault (returnType_of callOptions) (_defaultReturnType this))) ;;
       ret (RpcResult (setProp response "result" result)))
    (fun error =>
       throw (Error ("Error getting filter changes: "
                     ++ message error))).

(** [getLogs]: returns an array of all logs matching a given filter object *)
Definition getLogs (filter : Object) (callOptions : option CallOptions)
    : Async Returned :=
  tryCatch
    (fromBlock <- (if truthy (getProp filter "fromBlock")
                    then lift (formatInput (getProp filter "fromBlock") None)
                    else ret JsUndefined) ;;
     toBlock <- (if truthy (getProp filter "toBlock")
                  then lift (formatInput (getProp filter "toBlock") None)
                  else ret JsUndefined) ;;
     let requestParameters : RequestParameters :=
       ("eth_getLogs",
        [JsObject (setProp (setProp filter "fromBlock" fromBlock) "toBlock" toBlock)],
        callOptions) in
     if subscribe_of callOptions
     then subscription <- spreadArgs _subscribe requestParameters ;;
          ret (Subscription subscription)
     else
       response <- spreadArgs _send requestParameters ;;
       result <- lift (formatRpcResultArray (getProp response "result")
                   ["logIndex"; "transactionIndex"; "blockNumber"]
                   (orDefault (returnType_of callOptions) (_defaultReturnType this))) ;;
       ret (RpcResult (setProp response "result" result)))
    (fun error => throw (Error ("Error getting logs: " ++ message error))).

(** [getWork]: returns the hash of the current block, the seedHash, and the
    boundary condition to be met ('target') *)
Definition getWork (callOptions : option CallOptions) : Async Returned :=
  tryCatch
    (let requestParameters : RequestParameters :=
       ("eth_getWork", [], callOptions) in
     if subscribe_of callOptions
     then subscription <- spreadArgs _subscribe requestParameters ;;
          ret (Subscription subscription)
     else response <- spreadArgs _send requestParameters ;;
          ret (RpcResult response))
    (fun error => throw (Error ("Error getting work: " ++ message error))).

(** [submitWork]: used for submitting a proof-of-work solution *)
Definition submitWork (nonce : JsValue) (powHash : string) (digest : string)
    (callOptions : option CallOptions) : Async Returned :=
  tryCatch
    (nonce_hex <- lift (formatInput nonce None) ;;
     let requestParameters : RequestParameters :=
       ("eth_submitWork",
        [nonce_hex;
         JsString powHash;
         JsString digest],
        callOptions) in
     if subscribe_of callOptions
     then subscription <- spreadArgs _subscribe requestParameters ;;
          ret (Subscription subscription)
     else response <- spreadArgs _send requestParameters ;;
          ret (RpcResult response))
    (fun error => throw (Error ("Error submitting work: " ++ message error))).

(** [submitHashRate]: used for submitting mining hashrate *)
Definition submitHashRate (hashRate : JsValue) (clientId : JsValue)
    (callOptions : option CallOptions) : Async Returned :=
  tryCatch
    (rate <- lift (formatInput hashRate (Some 32%N)) ;;
     id <- lift (formatInput clientId None) ;;
     let requestParameters : RequestParameters :=
       ("eth_submitHashRate", [rate; id], callOptions) in
     if subscribe_of callOptions
     then subscription <- spreadArgs _subscribe requestParameters ;;
          ret (Subscription subscription)
     else response <- spreadArgs _send requestParameters ;;
          ret (RpcResult response))
    (fun error =>
       throw (Error ("Error submitting hash rate: "
                     ++ message error))).

(** ** All methods at once *)

Definition invoke (op : Operation) (callOptions : option CallOptions)
    : Async Returned :=
  match op with
  | GetClientVersion => getClientVersion callOptions
  | GetSha3 data => getSha3 data callOptions
  | GetNetworkVersion => getNetworkVersion callOptions
  | GetNetworkListening => getNetworkListening callOptions
  | GetNetworkPeerCount => getNetworkPeerCount callOptions
  | GetProtocolVersion => getProtocolVersion callOptions
  | GetSyncing => getSyncing callOptions
  | GetCoinbase => getCoinbase callOptions
  | GetMining => getMining callOptions
  | GetHashRate => getHashRate callOptions
  | GetGasPrice => getGasPrice callOptions
  | GetAccounts => getAccounts callOptions
  | GetBlockNumber => getBlockNumber callOptions
  | GetBalance address blockIdentifier =>
      getBalance address blockIdentifier callOptions
  | GetStorageAt address storagePosition blockIdentifier =>
      getStorageAt address storagePosition blockIdentifier callOptions
  | GetTransactionCount address blockIdentifier =>
      getTransactionCount address blockIdentifier callOptions
  | GetBlockTransactionCountByHash blockHash =>
      getBlockTransactionCountByHash blockHash callOptions
  | GetBlockTransactionCountByNumber blockIdentifier =>
      getBlockTransactionCountByNumber blockIdentifier callOptions
  | GetUncleCountByBlockHash blockHash =>
      getUncleCountByBlockHash blockHash callOptions
  | GetUncleCountByBlockNumber blockIdentifier =>
      getUncleCountByBlockNumber blockIdentifier callOptions
  | GetCode address blockIdentifier =>
      getCode address blockIdentifier callOptions
  | Sign address message' => sign address message' callOptions
  | SignTransaction transaction => signTransaction transaction callOptions
  | SendTransaction transaction => sendTransaction transaction callOptions
  | SendRawTransaction rawTransaction =>
      sendRawTransaction rawTransaction callOptions
  | Call transaction => call transaction callOptions
  | EstimateGas transaction => estimateGas transaction callOptions
  | GetBlockByHash blockHash returnFullTxs =>
      getBlockByHash blockHash returnFullTxs callOptions
  | GetBlockByNumber blockIdentifier returnFullTxs =>
      getBlockByNumber blockIdentifier returnFullTxs callOptions
  | GetTransactionByHash txHash => getTransactionByHash txHash callOptions
  | GetTransactionByBlockHashAndIndex blockHash transactionIndex =>
      getTransactionByBlockHashAndIndex blockHash transactionIndex callOptions
  | GetTransactionByBlockNumberAndIndex blockIdentifier transactionIndex =>
      getTransactionByBlockNumberAndIndex blockIdentifier transactionIndex callOptions
  | GetTransactionReceipt txHash => getTransactionReceipt txHash callOptions
  | GetUncleByBlockHashAndIndex blockHash uncleIndex =>
      getUncleByBlockHashAndIndex blockHash uncleIndex callOptions
  | GetUncleByBlockNumberAndIndex blockIdentifier uncleIndex =>
      getUncleByBlockNumberAndIndex blockIdentifier uncleIndex callOptions
  | GetCompilers => getCompilers callOptions
  | CompileSolidity sourceCode => compileSolidity sourceCode callOptions
  | CompileLLL sourceCode => compileLLL sourceCode callOptions
  | CompileSerpent sourceCode => compileSerpent sourceCode callOptions
  | NewFilter filter => newFilter filter callOptions
  | NewBlockFilter => newBlockFilter callOptions
  | NewPendingTransactionFilter => newPendingTransactionFilter callOptions
  | UninstallFilter filterId => uninstallFilter filterId callOptions
  | GetFilterChanges filterId => getFilterChanges filterId callOptions
  | GetFilterLogs filterId => getFilterLogs filterId callOptions
  | GetLogs filter => getLogs filter callOptions
  | GetWork => getWork callOptions
  | SubmitWork nonce powHash digest =>
      submitWork nonce powHash digest callOptions
  | SubmitHashRate hashRate clientId =>
      submitHashRate hashRate clientId callOptions
  end.

End Web3Eth.

(** ** The converter of web3-utils *)

Module Web3Utils.

(** Numerals: digit values, most significant first. *)

Definition valueOfDigits (base : N) (digits : list N) : N :=
  fold_left (fun acc d => acc * base + d)%N digits 0%N.

(** The digits of [n] in [base]; [fuel] bounds the number of digits. *)
Fixpoint digitsOfValue (base : N) (fuel : nat) (n : N) : list N :=
  match fuel with
  | O => []
  | S fuel' =>
      if (n <? base)%N then [n]
      else (digitsOfValue base fuel' (n / base)%N ++ [(n mod base)%N])%list
  end.

(** One more than the number of bits of [n]: enough for any base above 1. *)
Definition digitFuel (n : N) : nat := S (N.to_nat (N.size n)).

Definition digits (base : N) (n : N) : list N :=
  digitsOfValue base (digitFuel n) n.

(** Characters [0-9], [a-f] and [A-F] read as a hexadecimal digit. *)
Definition hexValue (c : ascii) : option N :=
  let code := N_of_ascii c in
  if ((48 <=? code) && (code <=? 57))%N then Some (code - 48)%N
  else if ((97 <=? code) && (code <=? 102))%N then Some (code - 87)%N
  else if ((65 <=? code) && (code <=? 70))%N then Some (code - 55)%N
  else None.

Definition decValue (c : ascii) : option N :=
  let code := N_of_ascii c in
  if ((48 <=? code) && (code <=? 57))%N then Some (code - 48)%N
  else None.

(** Digits are written in lower case. *)
Definition digitChar (d : N) : ascii :=
  if (d <? 10)%N then ascii_of_N (48 + d) else ascii_of_N (87 + d).

Fixpoint digitsOfString (digit : ascii -> option N) (s : string) : option (list N) :=
  match s with
  | EmptyString => Some []
  | String c rest =>
      match digit c, digitsOfString digit rest with
      | Some d, Some ds => Some (d :: ds)
      | _, _ => None
      end
  end.

Fixpoint stringOfDigits (ds : list N) : string :=
  match ds with
  | [] => EmptyString
  | d :: rest => String (digitChar d) (stringOfDigits rest)
  end.

Definition hexDigits (n : N) : string := stringOfDigits (digits 16 n).
Definition decimalDigits (n : N) : string := stringOfDigits (digits 10 n).

Fixpoint zeros (k : nat) : string :=
  match k with
  | O => EmptyString
  | S k' => String "0" (zeros k')
  end.

Definition MAX_SAFE_INTEGER : N := 9007199254740991.

Definition ConversionError (msg : string) : JsError :=
  {| name := "ConversionError"; message := msg |}.

(** The digits after the prefix [0x], for a string that has the prefix. *)
Definition hexBody (s : string) : option string :=
  match s with
  | String c1 (String c2 rest) =>
      if (Ascii.eqb c1 "0" && Ascii.eqb c2 "x")%bool then Some rest else None
  | _ => None
  end.

(** Modelled from the spec: the input side of [convert] (section 4.1), whose
    code in web3-utils is not among the sources.  The input is a prefixed hex
    string, a decimal numeric string or a native integer or bigint; anything
    that is not a syntactically valid hex or decimal numeral is a
    [ConversionError].  The quantities of the protocol are unsigned. *)
Definition parseNumeral (value : JsValue) : Completion N :=
  let invalid := Abrupt (ConversionError "not a valid hex or decimal numeral") in
  match value with
  | JsNumber n | JsBigInt n =>
      if (n <? 0)%Z then invalid else Normal (Z.to_N n)
  | JsString s =>
      match hexBody s with
      | Some hex =>
          match hex, digitsOfString hexValue hex with
          | String _ _, Some ds => Normal (valueOfDigits 16 ds)
          | _, _ => invalid
          end
      | None =>
          match s, digitsOfString decValue s with
          | String _ _, Some ds => Normal (valueOfDigits 10 ds)
          | _, _ => invalid
          end
      end
  | _ => invalid
  end.

(** Modelled from the spec: the output side of [convert] (section 4.1).
    [HexString] is zero-left-trimmed lowercase 0x-prefixed hex, [Number] fails
    beyond the safe integer range, [BigInt] is arbitrary precision,
    [DecimalString] is base 10.  With a byte width the hex output is
    left-padded with zero bytes, and an input wider than that fails. *)
Definition render (n : N) (target : ValidTypesEnum) (byteLength : option N)
    : Completion JsValue :=
  match target with
  | HexString =>
      match byteLength with
      | None => Normal (JsString ("0x" ++ hexDigits n))
      | Some width =>
          let hex := hexDigits n in
          if (2 * N.to_nat width <? String.length hex)%nat
          then Abrupt (ConversionError "exceeds the requested byte width")
          else Normal (JsString
                 ("0x" ++ zeros (2 * N.to_nat width - String.length hex) ++ hex))
      end
  | DecimalString => Normal (JsString (decimalDigits n))
  | Number =>
      if (n <=? MAX_SAFE_INTEGER)%N then Normal (JsNumber (Z.of_N n))
      else Abrupt (ConversionError "exceeds the safe integer range")
  | BigInt => Normal (JsBigInt (Z.of_N n))
  end.

(** Modelled from the spec: [convert(value, targetRepresentation)] of
    section 4.1 with its byte-length padding variant. *)
Definition convert (value : JsValue) (target : ValidTypesEnum)
    (byteLength : option N) : Completion JsValue :=
  match parseNumeral value with
  | Normal n => render n target byteLength
  | Abrupt e => Abrupt e
  end.

(** Modelled from the spec: [formatInput] of web3-utils, the converter with
    target [HexString] that the dispatcher applies before transmission
    (section 4.2), with the optional byte width of section 4.1. *)
Definition formatInput (input : JsValue) (byteLength : option N)
    : Completion JsValue :=
  convert input HexString byteLength.

(** Modelled from the spec: [formatOutput] of web3-utils, the converter
    applied to a scalar result (section 4.3).  A null or absent result is
    no error and is passed through unchanged (sections 4.3 and 7). *)
Definition formatOutput (output : JsValue) (type : ValidTypesEnum)
    : Completion JsValue :=
  match output with
  | JsNull | JsUndefined => Normal output
  | _ => convert output type None
  end.

(** Modelled from the spec: one record of section 4.3.  Each name of
    [keys] that is present in the record is converted; a name that is absent
    is skipped; the other fields stay as received. *)
Fixpoint formatRecord (record : Object) (keys : list string)
    (type : ValidTypesEnum) : Completion Object :=
  match keys with
  | [] => Normal record
  | key :: rest =>
      if hasProp record key then
        match convert (getProp record key) type None with
        | Normal v => formatRecord (setProp record key v) rest type
        | Abrupt e => Abrupt e
        end
      else formatRecord record rest type
  end.

Definition formatItem (item : JsValue) (keys : list string)
    (type : ValidTypesEnum) : Completion JsValue :=
  match item with
  | JsObject record =>
      match formatRecord record keys type with
      | Normal record' => Normal (JsObject record')
      | Abrupt e => Abrupt e
      end
  | other => Normal other
  end.

Fixpoint formatItems (items : list JsValue) (keys : list string)
    (type : ValidTypesEnum) : Completion (list JsValue) :=
  match items with
  | [] => Normal []
  | item :: rest =>
      match formatItem item keys type with
      | Normal item' =>
          match formatItems rest keys type with
          | Normal rest' => Normal (item' :: rest')
          | Abrupt e => Abrupt e
          end
      | Abrupt e => Abrupt e
      end
  end.

(** Modelled from the spec: [formatRpcResultArray] of web3-utils, the
    result normalizer of section 4.3.  A sequence is normalized element by
    element, a record field by field, and anything else ([null], the boolean
    of the syncing status, a scalar) is passed through unchanged. *)
Definition formatRpcResultArray (result : JsValue) (keys : list string)
    (type : ValidTypesEnum) : Completion JsValue :=
  match result with
  | JsArray items =>
      match formatItems items keys type with
      | Normal items' => Normal (JsArray items')
      | Abrupt e => Abrupt e
      end
  | other => formatItem other keys type
  end.






End Web3Utils.

(** ** Numerals in normal form *)



(** ** Tables read off the methods *)

(** The context message a method puts in front of the cause it rethrows. *)
Definition contextOf (op : Operation) : string :=
  match op with
  | GetClientVersion => "Error getting client version: "
  | GetSha3 _ => "Error getting sha3 hash: "
  | GetNetworkVersion => "Error getting network version: "
  | GetNetworkListening => "Error getting network listening: "
  | GetNetworkPeerCount => "Error getting network peer count: "
  | GetProtocolVersion => "Error getting protocol version: "
  | GetSyncing => "Error getting syncing status: "
  | GetCoinbase => "Error getting coinbase address: "
  | GetMining => "Error getting mining status: "
  | GetHashRate => "Error getting hash rate: "
  | GetGasPrice => "Error getting gas price: "
  | GetAccounts => "Error getting accounts: "
  | GetBlockNumber => "Error getting block number: "
  | GetBalance _ _ => "Error getting balance: "
  | GetStorageAt _ _ _ => "Error getting storage value: "
  | GetTransactionCount _ _ => "Error getting transaction count: "
  | GetBlockTransactionCountByHash _ =>
      "Error getting transaction count for block by hash: "
  | GetBlockTransactionCountByNumber _ =>
      "Error getting transaction count for block by number: "
  | GetUncleCountByBlockHash _ => "Error getting uncle count for block by hash: "
  | GetUncleCountByBlockNumber _ =>
      "Error getting uncle count for block by number: "
  | GetCode _ _ => "Error getting code at address: "
  | Sign _ _ => "Error signing message: "
  | SignTransaction _ => "Error signing transaction: "
  | SendTransaction _ => "Error sending transaction: "
  | SendRawTransaction _ => "Error sending raw transaction: "
  | Call _ => "Error sending call transaction: "
  | EstimateGas _ => "Error getting gas estimate: "
  | GetBlockByHash _ _ => "Error getting block by hash: "
  | GetBlockByNumber _ _ => "Error getting block by number: "
  | GetTransactionByHash _ => "Error getting transaction by hash: "
  | GetTransactionByBlockHashAndIndex _ _ =>
      "Error getting transaction by block hash and index: "
  | GetTransactionByBlockNumberAndIndex _ _ =>
      "Error getting transaction by block number and index: "
  | GetTransactionReceipt _ => "Error getting transaction reciept: "
  | GetUncleByBlockHashAndIndex _ _ =>
      "Error getting uncle by block hash and index: "
  | GetUncleByBlockNumberAndIndex _ _ =>
      "Error getting uncle by block number and index: "
  | GetCompilers => "Error getting compilers: "
  | CompileSolidity _ => "Error getting compiling solidity code: "
  | CompileLLL _ => "Error getting compiling LLL code: "
  | CompileSerpent _ => "Error getting compiling serpent code: "
  | NewFilter _ => "Error creating filter: "
  | NewBlockFilter => "Error creating block filter: "
  | NewPendingTransactionFilter => "Error creating pending transaction filter: "
  | UninstallFilter _ => "Error uninstalling filter: "
  | GetFilterChanges _ => "Error getting filter changes: "
  | GetFilterLogs _ => "Error getting filter changes: "
  | GetLogs _ => "Error getting logs: "
  | GetWork => "Error getting work: "
  | SubmitWork _ _ _ => "Error submitting work: "
  | SubmitHashRate _ _ => "Error submitting hash rate: "
  end.

(** The method name each method puts in its request *)
Definition methodOf (op : Operation) : string :=
  match op with
  | GetClientVersion => "web3_clientVersion"
  | GetSha3 _ => "web3_clientVersion"
  | GetNetworkVersion => "net_version"
  | GetNetworkListening => "net_listening"
  | GetNetworkPeerCount => "net_peerCount"
  | GetProtocolVersion => "eth_protocolVersion"
  | GetSyncing => "eth_syncing"
  | GetCoinbase => "eth_coinbase"
  | GetMining => "eth_mining"
  | GetHashRate => "eth_hashrate"
  | GetGasPrice => "eth_gasPrice"
  | GetAccounts => "eth_accounts"
  | GetBlockNumber => "eth_blockNumber"
  | GetBalance _ _ => "net_version"
  | GetStorageAt _ _ _ => "eth_getStorageAt"
  | GetTransactionCount _ _ => "eth_getTransactionCount"
  | GetBlockTransactionCountByHash _ => "eth_getBlockTransactionCountByHash"
  | GetBlockTransactionCountByNumber _ => "eth_getBlockTransactionCountByNumber"
  | GetUncleCountByBlockHash _ => "eth_getUncleCountByBlockHash"
  | GetUncleCountByBlockNumber _ => "eth_getUncleCountByBlockNumber"
  | GetCode _ _ => "eth_getCode"
  | Sign _ _ => "eth_sign"
  | SignTransaction _ => "eth_signTransaction"
  | SendTransaction _ => "eth_sendTransaction"
  | SendRawTransaction _ => "eth_sendRawTransaction"
  | Call _ => "eth_call"
  | EstimateGas _ => "eth_estimateGas"
  | GetBlockByHash _ _ => "eth_getBlockByHash"
  | GetBlockByNumber _ _ => "eth_getBlockByNumber"
  | GetTransactionByHash _ => "eth_getTransactionByHash"
  | GetTransactionByBlockHashAndIndex _ _ => "eth_getTransactionByBlockHashAndIndex"
  | GetTransactionByBlockNumberAndIndex _ _ =>
      "eth_getTransactionByBlockNumberAndIndex"
  | GetTransactionReceipt _ => "eth_getTransactionReceipt"
  | GetUncleByBlockHashAndIndex _ _ => "eth_getUncleByBlockHashAndIndex"
  | GetUncleByBlockNumberAndIndex _ _ => "eth_getUncleByBlockNumberAndIndex"
  | GetCompilers => "eth_getCompilers"
  | CompileSolidity _ => "eth_compileSolidity"
  | CompileLLL _ => "eth_compileLLL"
  | CompileSerpent _ => "eth_compileSerpent"
  | NewFilter _ => "eth_newFilter"
  | NewBlockFilter => "eth_newBlockFilter"
  | NewPendingTransactionFilter => "eth_newPendingTransactionFilter"
  | UninstallFilter _ => "eth_uninstallFilter"
  | GetFilterChanges _ => "eth_getFilterChanges"
  | GetFilterLogs _ => "eth_getFilterLogs"
  | GetLogs _ => "eth_getLogs"
  | GetWork => "eth_getWork"
  | SubmitWork _ _ _ => "eth_submitWork"
  | SubmitHashRate _ _ => "eth_submitHashRate"
  end.

(** The block identifier of the methods that take one *)
Definition blockIdentifierOf (op : Operation) : option JsValue :=
  match op with
  | GetBalance _ blockIdentifier
  | GetStorageAt _ _ blockIdentifier
  | GetTransactionCount _ blockIdentifier
  | GetBlockTransactionCountByNumber blockIdentifier
  | GetUncleCountByBlockNumber blockIdentifier
  | GetCode _ blockIdentifier
  | GetBlockByNumber blockIdentifier _
  | GetTransactionByBlockNumberAndIndex blockIdentifier _
  | GetUncleByBlockNumberAndIndex blockIdentifier _ => Some blockIdentifier
  | _ => None
  end.

Definition isGetBalance (op : Operation) : bool :=
  match op with
  | GetBalance _ _ => true
  | _ => false
  end.

(** [o.k ? formatInput(o.k) : undefined] converts only a truthy member. *)
Definition optionalConversion (o : Object) (k : string) : list (JsValue * option N) :=
  if truthy (getProp o k) then [(getProp o k, None)] else [].

Definition transactionKeys : list string := ["gas"; "gasPrice"; "value"; "nonce"].
Definition filterKeys : list string := ["fromBlock"; "toBlock"].

(** The calls of [formatInput] a method makes while it builds
    [requestParameters], in evaluation order: the input and the byte
    length of each. *)
Definition inputConversions (op : Operation) : list (JsValue * option N) :=
  match op with
  | GetBalance _ blockIdentifier =>
      if _isBlockTag blockIdentifier then [] else [(blockIdentifier, None)]
  | GetStorageAt _ storagePosition blockIdentifier =>
      [(storagePosition, None); (blockIdentifier, None)]
  | GetTransactionCount _ blockIdentifier
  | GetCode _ blockIdentifier
  | GetBlockTransactionCountByNumber blockIdentifier
  | GetUncleCountByBlockNumber blockIdentifier
  | GetBlockByNumber blockIdentifier _ => [(blockIdentifier, None)]
  | SignTransaction transaction
  | SendTransaction transaction
  | Call transaction
  | EstimateGas transaction =>
      flat_map (optionalConversion transaction) transactionKeys
  | GetTransactionByBlockHashAndIndex _ index
  | GetUncleByBlockHashAndIndex _ index => [(index, None)]
  | GetTransactionByBlockNumberAndIndex blockIdentifier index
  | GetUncleByBlockNumberAndIndex blockIdentifier index =>
      [(blockIdentifier, None); (index, None)]
  | NewFilter filter
  | GetLogs filter => flat_map (optionalConversion filter) filterKeys
  | UninstallFilter filterId
  | GetFilterChanges filterId
  | GetFilterLogs filterId => [(filterId, None)]
  | SubmitWork nonce _ _ => [(nonce, None)]
  | SubmitHashRate hashRate clientId => [(hashRate, Some 32%N); (clientId, None)]
  | _ => []
  end.

(** The cause thrown by the first conversion that fails, if any does. *)
Fixpoint firstFailure (formatInput : JsValue -> option N -> Completion JsValue)
    (conversions : list (JsValue * option N)) : option JsError :=
  match conversions with
  | [] => None
  | (input, byteLength) :: rest =>
      match formatInput input byteLength with
      | Abrupt e => Some e
      | Normal _ => firstFailure formatInput rest
      end
  end.

(** What a method makes of a rejection of the request manager. *)
Definition rethrown {A B} (op : Operation) (wrap : A -> B) (c : Completion A)
    : Completion B :=
  match c with
  | Normal a => Normal (wrap a)
  | Abrupt e => Abrupt (Error (contextOf op ++ message e))
  end.

(** [callOptions] with another delivery mode, all else equal. *)
Definition withSubscribe (b : bool) (callOptions : CallOptions) : CallOptions :=
  {| rpcOptions := rpcOptions callOptions;
     providerCallOptions := providerCallOptions callOptions;
     subscribe := b;
     returnType := returnType callOptions |}.

Definition withReturnType (t : option ValidTypesEnum) (callOptions : CallOptions)
    : CallOptions :=
  {| rpcOptions := rpcOptions callOptions;
     providerCallOptions := providerCallOptions callOptions;
     subscribe := subscribe callOptions;
     returnType := t |}.

(** The names a lookup decodes in its result: the list each method passes to
    [formatRpcResultArray] *)
Definition blockKeys : list string :=
  ["number"; "nonce"; "difficulty"; "totalDifficulty"; "size"; "gasLimit";
   "gasUsed"; "timestamp"].
Definition transactionResultKeys : list string :=
  ["blockNumber"; "gas"; "gasPrice"; "nonce"; "transactionIndex"; "value"; "v"].
Definition receiptKeys : list string := ["blockNumber"; "cumulativeGasUsed"; "gasUsed"].
Definition logKeys : list string := ["logIndex"; "transactionIndex"; "blockNumber"].
Definition syncingKeys : list string := ["startingBlock"; "currentBlock"; "highestBlock"].

(** The lookups: the block, uncle, transaction and log queries *)
Definition lookupKeys (op : Operation) : option (list string) :=
  match op with
  | GetBlockByHash _ _
  | GetBlockByNumber _ _
  | GetUncleByBlockHashAndIndex _ _
  | GetUncleByBlockNumberAndIndex _ _ => Some blockKeys
  | GetTransactionByHash _
  | GetTransactionByBlockHashAndIndex _ _
  | GetTransactionByBlockNumberAndIndex _ _ => Some transactionResultKeys
  | GetTransactionReceipt _ => Some receiptKeys
  | GetFilterChanges _
  | GetFilterLogs _
  | GetLogs _ => Some logKeys
  | _ => None
  end.

(** [{...response, result}] around a normalized result, or the rethrown
    failure of the normalizer *)
Definition withResult (op : Operation) (response : Object) (c : Completion JsValue)
    : Completion Returned :=
  rethrown op (fun v => RpcResult (setProp response "result" v)) c.

(** How a method treats the result of [send]: it returns the response as it
    is, or replaces [result] by its [formatOutput], or by its
    [formatRpcResultArray] under a list of keys, at the representation the
    caller chose or (in [getSyncing]) always at the client's default. *)
Inductive Normalizer : Type :=
| PassThrough
| Scalar
| Records (keys : list string)
| RecordsAtDefault (keys : list string).

Definition normalizerOf (op : Operation) : Normalizer :=
  match op with
  | GetNetworkVersion
  | GetNetworkPeerCount
  | GetProtocolVersion
  | GetHashRate
  | GetGasPrice
  | GetBlockNumber
  | GetBalance _ _
  | GetStorageAt _ _ _
  | GetTransactionCount _ _
  | GetBlockTransactionCountByHash _
  | GetBlockTransactionCountByNumber _
  | GetUncleCountByBlockHash _
  | GetUncleCountByBlockNumber _
  | EstimateGas _
  | NewFilter _
  | NewBlockFilter
  | NewPendingTransactionFilter => Scalar
  | GetSyncing => RecordsAtDefault syncingKeys
  | GetBlockByHash _ _
  | GetBlockByNumber _ _
  | GetUncleByBlockHashAndIndex _ _
  | GetUncleByBlockNumberAndIndex _ _ => Records blockKeys
  | GetTransactionByHash _
  | GetTransactionByBlockHashAndIndex _ _
  | GetTransactionByBlockNumberAndIndex _ _ => Records transactionResultKeys
  | GetTransactionReceipt _ => Records receiptKeys
  | GetFilterChanges _
  | GetFilterLogs _
  | GetLogs _ => Records logKeys
  | _ => PassThrough
  end.

(** What a method returns for a response of [send] *)
Definition normalized
    (formatOutput : JsValue -> ValidTypesEnum -> Completion JsValue)
    (formatRpcResultArray :
       JsValue -> list string -> ValidTypesEnum -> Completion JsValue)
    (this : Web3Eth) (op : Operation) (callOptions : option CallOptions)
    (response : Object) : Completion Returned :=
  let result := getProp response "result" in
  let type := orDefault (returnType_of callOptions) (_defaultReturnType this) in
  match normalizerOf op with
  | PassThrough => Normal (RpcResult response)
  | Scalar => withResult op response (formatOutput result type)
  | Records keys => withResult op response (formatRpcResultArray result keys type)
  | RecordsAtDefault keys =>
      withResult op response
        (formatRpcResultArray result keys (_defaultReturnType this))
  end.

(** The normalizer of a method throws [cause] on a response of [send]. *)
Definition normalizerThrows
    (formatOutput : JsValue -> ValidTypesEnum -> Completion JsValue)
    (formatRpcResultArray :
       JsValue -> list string -> ValidTypesEnum -> Completion JsValue)
    (this : Web3Eth) (op : Operation) (callOptions : option CallOptions)
    (response : Object) (cause : JsError) : Prop :=
  let result := getProp response "result" in
  let type := orDefault (returnType_of callOptions) (_defaultReturnType this) in
  match normalizerOf op with
  | PassThrough => False
  | Scalar => formatOutput result type = Abrupt cause
  | Records keys => formatRpcResultArray result keys type = Abrupt cause
  | RecordsAtDefault keys =>
      formatRpcResultArray result keys (_defaultReturnType this) = Abrupt cause
  end.

(** The filter methods, which share one request stanza *)
Definition isFilterCall (op : Operation) (filter : Object) : Prop :=
  op = NewFilter filter \/ op = GetLogs filter.

(** The transaction methods, which share one request stanza *)
Definition isTransactionCall (op : Operation) (transaction : Object) : Prop :=
  op = SignTransaction transaction \/ op = SendTransaction transaction \/
  op = Call transaction \/ op = EstimateGas transaction.

(** What the request manager saw of a transmission *)
Definition requestOf (t : Transmission) : Object :=
  match t with
  | ViaSend request _ => request
  | ViaSubscribe request _ => request
  end.

Definition methodsOf (w : Transcript) : list JsValue :=
  map (fun t => getProp (requestOf t) "method") w.

Definition paramsOf (w : Transcript) : list JsValue :=
  map (fun t => getProp (requestOf t) "params") w.

(** ** The class over the converter of web3-utils *)

Definition web3Eth := invoke Web3Utils.formatInput Web3Utils.formatOutput
                        Web3Utils.formatRpcResultArray.

(** A node for the worked examples: it is syncing, knows a gas price and one
    log entry, and finds nothing else. *)
Definition exampleResult (method : JsValue) : JsValue :=
  match method with
  | JsString m =>
      if String.eqb m "eth_syncing" then
        JsObject [("startingBlock", JsString "0x384");
                  ("currentBlock", JsString "0x386");
                  ("highestBlock", JsString "0x454")]
      else if String.eqb m "eth_gasPrice" then JsString "0x3b9aca00"
      else if String.eqb m "net_version" then JsString "1"
      else if String.eqb m "eth_getLogs" then
        JsArray [JsObject [("logIndex", JsString "0x1");
                           ("blockNumber", JsString "0x1b4");
                           ("data", JsString "0x00ff")]]
      else JsNull
  | _ => JsNull
  end.

Definition exampleSend (request : Object) (options : JsValue) : Completion Object :=
  Normal [("id", getProp request "id");
          ("jsonrpc", JsString "2.0");
          ("result", exampleResult (getProp request "method"))].

Definition exampleSubscribe (request : Object) (options : JsValue)
    : Completion JsValue :=
  Normal (JsObject [("eventEmitter", JsString "emitter");
                    ("subscriptionId", JsString "0x1")]).

(** A node that cannot be reached: the request manager rejects. *)
Definition offlineSend (request : Object) (options : JsValue) : Completion Object :=
  Abrupt {| name := "TransportError"; message := "connection refused" |}.

Definition offlineSubscribe (request : Object) (options : JsValue)
    : Completion JsValue :=
  Abrupt {| name := "TransportError"; message := "connection refused" |}.

Definition exampleFilter : Object :=
  [("fromBlock", JsNumber 0);
   ("toBlock", JsNumber 4660);
   ("address", JsString "0x8888f1f195afa192cfee860698584c030f4c9db1");
   ("topics", JsArray [JsString "0x000000000000000000000000a94f5374fce5edbc8e2a8697c15331677e6ebf0b"])].

Definition exampleClient : Web3Eth :=
  constructor {| providerUrl := "http://127.0.0.1:8545"; options_returnType := None |}.

Definition exampleEth := web3Eth exampleSend exampleSubscribe exampleClient.

Definition exampleTransaction : Object :=
  [("from", JsString "0xb60e8dd61c5d32be8058bb8eb970870f07233155");
   ("nonce", JsNumber 0);
   ("value", JsNumber 255);
   ("data", JsString "0xd46e8dd67c5d32be")].

Definition exampleOptions : CallOptions :=
  {| rpcOptions := Some [("id", JsNumber 42)];
     providerCallOptions := JsUndefined;
     subscribe := false;
     returnType := Some Number |}.

(** * Properties *)

(** ** Objects *)

Lemma getProp_setProp_same (o : Object) (k : string) (v : JsValue) :
  getProp (setProp o k v) k = v.
Proof.
  induction o as [|[k' v'] rest IH]; cbn.
  - now rewrite String.eqb_refl.
  - destruct (String.eqb k k') eqn:E; cbn.
    + now rewrite String.eqb_refl.
    + now rewrite E.
Qed.

Lemma getProp_setProp_other (o : Object) (k k' : string) (v : JsValue) :
  k <> k' -> getProp (setProp o k v) k' = getProp o k'.
Proof.
  intros Hne. induction o as [|[k0 v0] rest IH]; cbn.
  - destruct (String.eqb_spec k' k); [congruence | reflexivity].
  - destruct (String.eqb_spec k k0) as [->|]; cbn.
    + destruct (String.eqb_spec k' k0); [congruence | reflexivity].
    + destruct (String.eqb_spec k' k0); [reflexivity | exact IH].
Qed.

Lemma hasProp_setProp_same (o : Object) (k : string) (v : JsValue) :
  hasProp (setProp o k v) k = true.
Proof.
  unfold hasProp. induction o as [|[k' v'] rest IH]; cbn.
  - now rewrite String.eqb_refl.
  - destruct (String.eqb k k') eqn:E; cbn.
    + now rewrite String.eqb_refl.
    + now rewrite E.
Qed.

Lemma hasProp_setProp_other (o : Object) (k k' : string) (v : JsValue) :
  k <> k' -> hasProp (setProp o k v) k' = hasProp o k'.
Proof.
  intros Hne. unfold hasProp. induction o as [|[k0 v0] rest IH]; cbn.
  - destruct (String.eqb_spec k' k); [congruence | reflexivity].
  - destruct (String.eqb_spec k k0) as [->|]; cbn.
    + destruct (String.eqb_spec k' k0); reflexivity.
    + now rewrite IH.
Qed.

(** Writing back the value a present key already has changes nothing. *)
Lemma setProp_unchanged (o : Object) (k : string) :
  hasProp o k = true -> setProp o k (getProp o k) = o.
Proof.
  unfold hasProp. induction o as [|[k' v'] rest IH]; cbn.
  - discriminate.
  - destruct (String.eqb_spec k k') as [->|]; cbn.
    + reflexivity.
    + intros H. now rewrite IH.
Qed.

(** ** The dispatcher, for any converter and any node *)

Section Dispatch.

Variable formatInput : JsValue -> option N -> Completion JsValue.
Variable formatOutput : JsValue -> ValidTypesEnum -> Completion JsValue.
Variable formatRpcResultArray :
  JsValue -> list string -> ValidTypesEnum -> Completion JsValue.
Variable requestManager_send : Object -> JsValue -> Completion Object.
Variable requestManager_subscribe : Object -> JsValue -> Completion JsValue.
Variable this : Web3Eth.

Local Abbreviation run := (invoke formatInput formatOutput formatRpcResultArray
                         requestManager_send requestManager_subscribe this).

Ltac unfold_methods :=
  cbv beta iota delta
    [invoke getClientVersion getSha3 getNetworkVersion getNetworkListening
     getNetworkPeerCount getProtocolVersion getSyncing getCoinbase getMining
     getHashRate getGasPrice getAccounts getBlockNumber getBalance getStorageAt
     getTransactionCount getBlockTransactionCountByHash
     getBlockTransactionCountByNumber getUncleCountByBlockHash
     getUncleCountByBlockNumber getCode sign signTransaction sendTransaction
     sendRawTransaction call estimateGas getBlockByHash getBlockByNumber
     getTransactionByHash getTransactionByBlockHashAndIndex
     getTransactionByBlockNumberAndIndex getTransactionReceipt
     getUncleByBlockHashAndIndex getUncleByBlockNumberAndIndex getCompilers
     compileSolidity compileLLL compileSerpent newFilter newBlockFilter
     newPendingTransactionFilter uninstallFilter getFilterChanges getFilterLogs
     getLogs getWork submitWork submitHashRate
     tryCatch bind lift ret throw spreadArgs _send _subscribe].

(** A failing input conversion aborts the method before the request
    manager is reached, with the method's context and the cause's message. *)
Lemma conversion_failure_aborts (op : Operation) (callOptions : option CallOptions)
    (w : Transcript) (cause : JsError) :
  firstFailure formatInput (inputConversions op) = Some cause ->
  run op callOptions w = (Abrupt (Error (contextOf op ++ message cause)), w).
Proof.
  destruct op; cbn [inputConversions firstFailure contextOf flat_map transactionKeys filterKeys app];
    unfold optionalConversion; intros H; try discriminate H; unfold_methods.
  all: repeat match goal with
       | H : context [if ?b then _ else _] |- _ => destruct b eqn:?; cbn [firstFailure app] in H
       | H : context [match formatInput ?v ?w with _ => _ end] |- _ =>
           destruct (formatInput v w) eqn:?; cbn [firstFailure app] in H
       end; try discriminate; try (injection H as <-); reflexivity.
Qed.

(** X1.  When no input conversion fails, the method hands exactly one request
    to the request manager, through [subscribe] or [send] as the caller
    chose. *)
Lemma conversions_pass_transmits (op : Operation) (callOptions : option CallOptions)
    (w : Transcript) :
  firstFailure formatInput (inputConversions op) = None ->
  exists method params,
    let request := requestObject method params callOptions in
    let options := providerCallOptions_of callOptions in
    snd (run op callOptions w) =
      (w ++ [if subscribe_of callOptions
             then ViaSubscribe request options
             else ViaSend request options])%list.
Proof.
  destruct op; cbn [inputConversions firstFailure flat_map transactionKeys filterKeys app];
    unfold optionalConversion; intros H; unfold_methods.
  all: repeat match goal with
       | H : context [if ?b then _ else _] |- _ => destruct b eqn:?; cbn [firstFailure app] in H
       | H : context [match formatInput ?v ?w with _ => _ end] |- _ =>
           destruct (formatInput v w) eqn:?; cbn [firstFailure app] in H
       end; try discriminate.
  all: do 2 eexists; cbv zeta; destruct (subscribe_of callOptions);
    repeat match goal with
    | |- context [match ?c with Normal _ => _ | Abrupt _ => _ end] => destruct c
    end; reflexivity.
Qed.

Ltac split_conversions H :=
  repeat match type of H with
  | context [if ?b then _ else _] => destruct b eqn:?; cbn [firstFailure app] in H
  | context [match formatInput ?v ?w with _ => _ end] =>
      destruct (formatInput v w) eqn:?; cbn [firstFailure app] in H
  end.

Ltac split_completions :=
  repeat match goal with
  | |- context [match ?c with Normal _ => _ | Abrupt _ => _ end] => destruct c
  end.

(** C10.  In subscribe mode every method returns what the request manager's
    [subscribe] resolved to, as it is and without output normalization
    (a rejection is rethrown under the method's context), and the request
    it hands over carries the same method name and parameter list as the one
    [send] gets in request/response mode.  If an input conversion fails,
    nothing is handed over in either mode. *)
Theorem subscribe_returns_subscription_as_is (op : Operation)
    (callOptions : CallOptions) (w : Transcript) :
  subscribe callOptions = true ->
  match firstFailure formatInput (inputConversions op) with
  | Some cause =>
      run op (Some callOptions) w
        = (Abrupt (Error (contextOf op ++ message cause)), w)
  | None =>
      exists method params,
        let request := requestObject method params (Some callOptions) in
        let options := providerCallOptions callOptions in
        run op (Some callOptions) w
          = (rethrown op Subscription (requestManager_subscribe request options),
             (w ++ [ViaSubscribe request options])%list)
        /\ snd (run op (Some (withSubscribe false callOptions)) w)
             = (w ++ [ViaSend request options])%list
  end.
Proof.
  intros Hsub.
  destruct (firstFailure formatInput (inputConversions op)) as [cause|] eqn:H.
  - now apply conversion_failure_aborts.
  - destruct op;
      cbn [inputConversions firstFailure flat_map transactionKeys filterKeys app] in H;
      unfold optionalConversion in H; unfold_methods;
      cbn [subscribe_of withSubscribe subscribe providerCallOptions_of providerCallOptions];
      rewrite Hsub; split_conversions H; try discriminate;
      do 2 eexists; cbv zeta; unfold rethrown; cbn [contextOf];
      match goal with
      | |- ?subscribed /\ ?sent =>
          assert (Hsent : sent) by (split_completions; reflexivity);
          split; [ split_completions; reflexivity | exact Hsent ]
      end.
Qed.

(** C7.  The transaction methods replace each of [gas], [gasPrice],
    [value] and [nonce] by its [formatInput] conversion only when the member
    is truthy; a falsy member, the number 0 included, is set to [undefined];
    every other member of the transaction is dispatched unchanged. *)
Theorem transaction_members_converted_only_when_truthy (op : Operation)
    (transaction : Object) (callOptions : option CallOptions) (w : Transcript) :
  isTransactionCall op transaction ->
  firstFailure formatInput (inputConversions op) = None ->
  exists method dispatched,
    let request := requestObject method [JsObject dispatched] callOptions in
    let options := providerCallOptions_of callOptions in
    snd (run op callOptions w)
      = (w ++ [if subscribe_of callOptions
               then ViaSubscribe request options
               else ViaSend request options])%list
    /\ (forall k, In k transactionKeys ->
          hasProp dispatched k = true /\
          if truthy (getProp transaction k)
          then formatInput (getProp transaction k) None = Normal (getProp dispatched k)
          else getProp dispatched k = JsUndefined)
    /\ (getProp transaction "nonce" = JsNumber 0 ->
          getProp dispatched "nonce" = JsUndefined)
    /\ (forall k, ~ In k transactionKeys ->
          getProp dispatched k = getProp transaction k).
Proof.
  intros Hop H.
  assert (Hkeys : forall (g p v n : JsValue) k, ~ In k transactionKeys ->
            getProp (setProp (setProp (setProp (setProp transaction "gas" g)
              "gasPrice" p) "value" v) "nonce" n) k = getProp transaction k).
  { intros g p v n k Hk. cbn in Hk.
    rewrite !getProp_setProp_other; [reflexivity | | | |]; intros <-; tauto. }
  destruct Hop as [ -> | [ -> | [ -> | -> ] ] ];
    cbn [inputConversions firstFailure flat_map transactionKeys app] in H;
    unfold optionalConversion in H; unfold_methods;
    split_conversions H; try discriminate;
    do 2 eexists; cbv zeta;
    (split; [ destruct (subscribe_of callOptions); split_completions; reflexivity | ]);
    (split; [ | split; [ | apply Hkeys ] ]).
  all: try (intros k [ <- | [ <- | [ <- | [ <- | [] ] ] ] ];
            (split; [ repeat first [ apply hasProp_setProp_same
                                   | rewrite hasProp_setProp_other by discriminate ] | ]);
            repeat first [ rewrite getProp_setProp_same
                         | rewrite getProp_setProp_other by discriminate ];
            match goal with
            | E : truthy ?x = _ |- context [truthy ?x] => rewrite E
            end; first [ assumption | reflexivity ]).
  all: intros H0; rewrite getProp_setProp_same;
    match goal with
    | E : truthy (getProp _ "nonce") = true |- _ =>
        rewrite H0 in E; discriminate E
    | _ => reflexivity
    end.
Qed.

(** The method [getSyncing] does not read [callOptions.returnType]: whatever
    the caller asks for, the result is normalized to the client's default. *)
Lemma getSyncing_ignores_returnType (callOptions : CallOptions)
    (t : option ValidTypesEnum) (w : Transcript) :
  run GetSyncing (Some (withReturnType t callOptions)) w
    = run GetSyncing (Some callOptions) w.
Proof. reflexivity. Qed.

(** [getGasPrice] normalizes its result to the caller's override. *)
Lemma getGasPrice_honours_returnType (callOptions : CallOptions)
    (t : ValidTypesEnum) (w : Transcript) (response : Object) :
  subscribe callOptions = false ->
  returnType callOptions = Some t ->
  requestManager_send (requestObject "eth_gasPrice" [] (Some callOptions))
    (providerCallOptions callOptions) = Normal response ->
  fst (run GetGasPrice (Some callOptions) w)
    = rethrown GetGasPrice (fun v => RpcResult (setProp response "result" v))
        (formatOutput (getProp response "result") t).
Proof.
  intros Hsub Ht Hsend. unfold_methods.
  cbn [subscribe_of returnType_of providerCallOptions_of orDefault].
  rewrite Hsub, Ht, Hsend. cbn [orDefault].
  destruct (formatOutput _ _); reflexivity.
Qed.

(** A lookup in request/response mode returns the response with its
    [result] run through [formatRpcResultArray] under the method's keys. *)
Lemma lookup_normalizes_result (op : Operation) (keys : list string)
    (callOptions : option CallOptions) (w : Transcript) :
  lookupKeys op = Some keys ->
  subscribe_of callOptions = false ->
  firstFailure formatInput (inputConversions op) = None ->
  exists method params,
    let request := requestObject method params callOptions in
    let options := providerCallOptions_of callOptions in
    let type := orDefault (returnType_of callOptions) (_defaultReturnType this) in
    forall response,
      requestManager_send request options = Normal response ->
      run op callOptions w
        = (withResult op response
             (formatRpcResultArray (getProp response "result") keys type),
           (w ++ [ViaSend request options])%list).
Proof.
  intros Hkeys Hsub H.
  destruct op; try discriminate Hkeys; injection Hkeys as <-;
    cbn [inputConversions firstFailure flat_map filterKeys app] in H;
    unfold optionalConversion in H; unfold_methods; rewrite Hsub;
    split_conversions H; try discriminate;
    do 2 eexists; cbv beta iota zeta; intros response Hsend;
    match goal with
    | |- context [requestManager_send ?r _] =>
        match type of Hsend with
        | requestManager_send ?r' _ = _ => unify r r'
        end
    end; rewrite Hsend;
    unfold withResult, rethrown, blockKeys, transactionResultKeys, receiptKeys, logKeys;
    cbn [contextOf];
    split_completions; reflexivity.
Qed.

Lemma getSyncing_normalizes_result (callOptions : option CallOptions)
    (w : Transcript) (response : Object) :
  subscribe_of callOptions = false ->
  requestManager_send (requestObject "eth_syncing" [] callOptions)
    (providerCallOptions_of callOptions) = Normal response ->
  run GetSyncing callOptions w
    = (withResult GetSyncing response
         (formatRpcResultArray (getProp response "result") syncingKeys
            (_defaultReturnType this)),
       (w ++ [ViaSend (requestObject "eth_syncing" [] callOptions)
                (providerCallOptions_of callOptions)])%list).
Proof.
  intros Hsub Hsend. unfold_methods. rewrite Hsub. cbv beta iota zeta.
  rewrite Hsend. unfold withResult, rethrown, syncingKeys; cbn [contextOf].
  split_completions; reflexivity.
Qed.

Lemma firstFailure_In (conversions : list (JsValue * option N)) (cause : JsError) :
  firstFailure formatInput conversions = Some cause ->
  exists input byteLength,
    In (input, byteLength) conversions /\ formatInput input byteLength = Abrupt cause.
Proof.
  induction conversions as [|[input byteLength] rest IH]; cbn [firstFailure].
  - discriminate.
  - destruct (formatInput input byteLength) as [v|e] eqn:E.
    + intros H. destruct (IH H) as (i & b & Hin & Hf).
      exists i, b. split; [now right | exact Hf].
    + intros [= <-]. exists input, byteLength. split; [now left | exact E].
Qed.

Lemma firstFailure_some (conversions : list (JsValue * option N))
    (input : JsValue) (byteLength : option N) (e : JsError) :
  In (input, byteLength) conversions ->
  formatInput input byteLength = Abrupt e ->
  exists cause, firstFailure formatInput conversions = Some cause.
Proof.
  induction conversions as [|[i b] rest IH]; cbn [firstFailure In].
  - intros [].
  - intros [[= -> ->]|Hin] Hf.
    + rewrite Hf. now eexists.
    + destruct (formatInput i b); [now apply IH | now eexists].
Qed.

(** C3, as the code has it.  When an input conversion fails, the method
    throws one [Error] whose message is the method's context followed by the
    message of the cause, the cause being the first conversion that failed,
    and the request manager is not reached: the transcript is unchanged. *)
Theorem failed_conversion_rethrown_before_transmission (op : Operation)
    (callOptions : option CallOptions) (w : Transcript)
    (input : JsValue) (byteLength : option N) (e : JsError) :
  In (input, byteLength) (inputConversions op) ->
  formatInput input byteLength = Abrupt e ->
  exists cause,
    firstFailure formatInput (inputConversions op) = Some cause
    /\ (exists input' byteLength',
          In (input', byteLength') (inputConversions op) /\
          formatInput input' byteLength' = Abrupt cause)
    /\ run op callOptions w
         = (Abrupt (Error (contextOf op ++ message cause)), w).
Proof.
  intros Hin Hfail.
  destruct (firstFailure_some _ _ _ _ Hin Hfail) as [cause Hcause].
  exists cause. split; [exact Hcause |]. split.
  - now apply firstFailure_In.
  - now apply conversion_failure_aborts.
Qed.

Lemma requestObject_method (method : string) (params : list JsValue)
    (callOptions : option CallOptions) :
  getProp (requestObject method params callOptions) "method" = JsString method.
Proof.
  unfold requestObject.
  rewrite getProp_setProp_other by discriminate. apply getProp_setProp_same.
Qed.

Lemma requestObject_params (method : string) (params : list JsValue)
    (callOptions : option CallOptions) :
  getProp (requestObject method params callOptions) "params" = JsArray params.
Proof. unfold requestObject. apply getProp_setProp_same. Qed.

(** X2.  The method name of the one request a method transmits is the one
    written in its stanza ([methodOf]). *)
Lemma transmitted_method (op : Operation) (callOptions : option CallOptions)
    (w : Transcript) :
  firstFailure formatInput (inputConversions op) = None ->
  methodsOf (snd (run op callOptions w))
    = (methodsOf w ++ [JsString (methodOf op)])%list.
Proof.
  intros H.
  destruct op; cbn [inputConversions firstFailure flat_map transactionKeys filterKeys app] in H;
    unfold optionalConversion in H; unfold_methods;
    split_conversions H; try discriminate;
    cbn [methodOf]; destruct (subscribe_of callOptions); cbv beta iota zeta;
    split_completions; cbn [snd]; unfold methodsOf; rewrite map_app; cbn [map requestOf];
    now rewrite requestObject_method.
Qed.

(** X3.  [getBalance] hands a block tag over as it is, without calling
    [formatInput] on it; any other identifier goes through [formatInput]. *)
Lemma getBalance_block_parameter (address : string) (blockIdentifier : JsValue)
    (callOptions : option CallOptions) (w : Transcript) :
  (_isBlockTag blockIdentifier = true ->
     paramsOf (snd (run (GetBalance address blockIdentifier) callOptions w))
       = (paramsOf w ++ [JsArray [JsString address; blockIdentifier]])%list)
  /\ (forall block, _isBlockTag blockIdentifier = false ->
        formatInput blockIdentifier None = Normal block ->
        paramsOf (snd (run (GetBalance address blockIdentifier) callOptions w))
          = (paramsOf w ++ [JsArray [JsString address; block]])%list).
Proof.
  split; [intros Htag | intros block Htag Hblock]; unfold_methods; rewrite Htag;
    try rewrite Hblock; destruct (subscribe_of callOptions); cbv beta iota zeta;
    split_completions; cbn [snd]; unfold paramsOf; rewrite map_app; cbn [map requestOf];
    now rewrite requestObject_params.
Qed.

(** X4.  Every other method that takes a block identifier calls [formatInput]
    on it whatever it is: when that call throws, the method throws and nothing
    is transmitted. *)
Lemma block_identifier_is_always_converted (op : Operation)
    (blockIdentifier : JsValue) (callOptions : option CallOptions)
    (w : Transcript) (e : JsError) :
  blockIdentifierOf op = Some blockIdentifier ->
  isGetBalance op = false ->
  formatInput blockIdentifier None = Abrupt e ->
  exists cause,
    run op callOptions w = (Abrupt (Error (contextOf op ++ message cause)), w).
Proof.
  intros Hblock Hop Hfail.
  assert (Hin : In (blockIdentifier, None) (inputConversions op)).
  { destruct op; try discriminate Hblock; try discriminate Hop;
      injection Hblock as <-; cbn; tauto. }
  destruct (firstFailure_some _ _ _ _ Hin Hfail) as [cause Hcause].
  exists cause. now apply conversion_failure_aborts.
Qed.

(** X6.  [submitHashRate] asks for the hash rate at a width of 32 bytes. *)
Lemma submitHashRate_parameters (hashRate clientId rate id : JsValue)
    (callOptions : option CallOptions) (w : Transcript) :
  formatInput hashRate (Some 32%N) = Normal rate ->
  formatInput clientId None = Normal id ->
  paramsOf (snd (run (SubmitHashRate hashRate clientId) callOptions w))
    = (paramsOf w ++ [JsArray [rate; id]])%list.
Proof.
  intros Hrate Hid. unfold_methods. rewrite Hrate, Hid.
  destruct (subscribe_of callOptions); cbv beta iota zeta;
    split_completions; cbn [snd]; unfold paramsOf; rewrite map_app; cbn [map requestOf];
    now rewrite requestObject_params.
Qed.

(** The error [getStorageAt] throws for a value that does not convert is
    the same whichever of its two converted arguments holds that value. *)
Lemma getStorageAt_error_is_blind_to_the_field (address : string)
    (bad good converted : JsValue) (e : JsError)
    (callOptions : option CallOptions) (w : Transcript) :
  formatInput bad None = Abrupt e ->
  formatInput good None = Normal converted ->
  run (GetStorageAt address bad good) callOptions w
    = run (GetStorageAt address good bad) callOptions w.
Proof.
  intros Hbad Hgood. unfold_methods. now rewrite Hbad, Hgood.
Qed.

(** The whole of a call whose input conversions pass. *)
Lemma run_after_conversions (op : Operation) (callOptions : option CallOptions)
    (w : Transcript) :
  firstFailure formatInput (inputConversions op) = None ->
  exists params,
    let request := requestObject (methodOf op) params callOptions in
    let options := providerCallOptions_of callOptions in
    run op callOptions w
      = if subscribe_of callOptions
        then (rethrown op Subscription (requestManager_subscribe request options),
              (w ++ [ViaSubscribe request options])%list)
        else (match requestManager_send request options with
              | Normal response =>
                  normalized formatOutput formatRpcResultArray this op callOptions
                    response
              | Abrupt e => Abrupt (Error (contextOf op ++ message e))
              end,
              (w ++ [ViaSend request options])%list).
Proof.
  intros H.
  destruct op;
    cbn [inputConversions firstFailure flat_map transactionKeys filterKeys app] in H;
    unfold optionalConversion in H; unfold_methods;
    split_conversions H; try discriminate;
    cbv beta iota zeta;
    unfold normalized, withResult, rethrown;
    cbn [normalizerOf methodOf contextOf];
    unfold blockKeys, transactionResultKeys, receiptKeys, logKeys, syncingKeys;
    match goal with
    | |- context [requestObject _ ?p callOptions] => exists p
    end;
    cbv beta iota zeta; destruct (subscribe_of callOptions);
    split_completions; reflexivity.
Qed.

(** X7.  Whatever goes wrong in a call, what the method throws is a plain
    [Error] whose message is the method's context followed by the message of
    the cause, and the cause is the error that was thrown inside: that of the
    first input conversion that failed (nothing was transmitted), or the
    rejection by [subscribe] or [send] of the one request transmitted, or
    what the normalizer threw on the response of [send].  No other error
    leaves the class. *)
Theorem every_failure_is_wrapped (op : Operation)
    (callOptions : option CallOptions) (w w' : Transcript) (e : JsError) :
  run op callOptions w = (Abrupt e, w') ->
  exists cause,
    e = Error (contextOf op ++ message cause)
    /\ ((firstFailure formatInput (inputConversions op) = Some cause /\ w' = w)
        \/ exists params,
             let request := requestObject (methodOf op) params callOptions in
             let options := providerCallOptions_of callOptions in
             firstFailure formatInput (inputConversions op) = None
             /\ ((subscribe_of callOptions = true
                  /\ w' = (w ++ [ViaSubscribe request options])%list
                  /\ requestManager_subscribe request options = Abrupt cause)
                 \/ (subscribe_of callOptions = false
                     /\ w' = (w ++ [ViaSend request options])%list
                     /\ (requestManager_send request options = Abrupt cause
                         \/ exists response,
                              requestManager_send request options = Normal response
                              /\ normalizerThrows formatOutput formatRpcResultArray
                                   this op callOptions response cause)))).
Proof.
  intros Hrun.
  destruct (firstFailure formatInput (inputConversions op)) as [cause|] eqn:H.
  - rewrite (conversion_failure_aborts _ _ _ _ H) in Hrun.
    injection Hrun as <- <-. exists cause. split; [reflexivity |]. now left.
  - destruct (run_after_conversions op callOptions w H) as [params Hshape].
    cbv zeta in Hshape. rewrite Hshape in Hrun. clear Hshape.
    unfold normalized, withResult, rethrown in Hrun.
    destruct (subscribe_of callOptions) eqn:Hsub.
    + destruct (requestManager_subscribe _ _) as [s|cause] eqn:Hreject;
        [discriminate |].
      injection Hrun as <- <-. exists cause. split; [reflexivity |].
      right. exists params. cbv zeta. split; [reflexivity |]. left. now repeat split.
    + destruct (requestManager_send _ _) as [response|cause] eqn:Hsend.
      * assert (Hthrown : exists cause,
                  e = Error (contextOf op ++ message cause)
                  /\ w' = (w ++ [ViaSend (requestObject (methodOf op) params callOptions)
                                   (providerCallOptions_of callOptions)])%list
                  /\ normalizerThrows formatOutput formatRpcResultArray this op
                       callOptions response cause).
        { unfold normalizerThrows. cbv zeta.
          destruct (normalizerOf op); try discriminate;
            match type of Hrun with
            | context [match ?c with Normal _ => _ | Abrupt _ => _ end] =>
                destruct c as [v|cause] eqn:Hthrow
            end; try discriminate; injection Hrun as <- <-;
            exists cause; now repeat split. }
        destruct Hthrown as (cause & -> & -> & Hthrown).
        exists cause. split; [reflexivity |].
        right. exists params. cbv zeta. split; [reflexivity |]. right.
        split; [reflexivity |]. split; [reflexivity |]. right. now exists response.
      * injection Hrun as <- <-. exists cause. split; [reflexivity |].
        right. exists params. cbv zeta. split; [reflexivity |]. right.
        split; [reflexivity |]. split; [reflexivity |]. now left.
Qed.

(** X8.  A call reaches the request manager at most once, after what was
    transmitted before, and not at all exactly when an input conversion
    fails: nothing is retried and nothing is sent twice. *)
Theorem at_most_one_transmission (op : Operation)
    (callOptions : option CallOptions) (w : Transcript) :
  exists sent,
    snd (run op callOptions w) = (w ++ sent)%list
    /\ (List.length sent <= 1)%nat
    /\ (sent = [] <-> firstFailure formatInput (inputConversions op) <> None).
Proof.
  destruct (firstFailure formatInput (inputConversions op)) as [cause|] eqn:H.
  - exists []. rewrite (conversion_failure_aborts _ _ _ _ H).
    cbn [snd]. rewrite app_nil_r. repeat split; try discriminate. cbn. lia.
  - destruct (run_after_conversions op callOptions w H) as [params Hshape].
    cbv zeta in Hshape. rewrite Hshape.
    destruct (subscribe_of callOptions); cbn [snd]; eexists;
      (split; [reflexivity |]); (split; [cbn; lia |]);
      (split; [discriminate | congruence]).
Qed.

(** X5.  In request/response mode a call whose conversions pass hands the
    request to [send] once and then, by the kind of method, returns the
    response as it is, or with [result] replaced by its [formatOutput] or its
    [formatRpcResultArray] at the representation the caller asked for (the
    client's default when none is asked for; always the default in
    [getSyncing]); a failure of that normalization and a rejection by [send]
    are rethrown under the method's context. *)
Theorem request_response_result (op : Operation)
    (callOptions : option CallOptions) (w : Transcript) :
  subscribe_of callOptions = false ->
  firstFailure formatInput (inputConversions op) = None ->
  exists params,
    let request := requestObject (methodOf op) params callOptions in
    let options := providerCallOptions_of callOptions in
    let result response := getProp response "result" in
    let type := orDefault (returnType_of callOptions) (_defaultReturnType this) in
    snd (run op callOptions w) = (w ++ [ViaSend request options])%list
    /\ (forall response,
          requestManager_send request options = Normal response ->
          fst (run op callOptions w)
            = match normalizerOf op with
              | PassThrough => Normal (RpcResult response)
              | Scalar =>
                  withResult op response (formatOutput (result response) type)
              | Records keys =>
                  withResult op response
                    (formatRpcResultArray (result response) keys type)
              | RecordsAtDefault keys =>
                  withResult op response
                    (formatRpcResultArray (result response) keys
                       (_defaultReturnType this))
              end)
    /\ (forall e,
          requestManager_send request options = Abrupt e ->
          fst (run op callOptions w)
            = Abrupt (Error (contextOf op ++ message e))).
Proof.
  intros Hsub H.
  destruct (run_after_conversions op callOptions w H) as [params Hshape].
  exists params. cbv zeta in Hshape |- *. rewrite Hshape, Hsub. cbn [fst snd].
  split; [reflexivity |]. split.
  - intros response ->. reflexivity.
  - intros e ->. reflexivity.
Qed.

(** X10.  The request a call transmits carries the members of
    [callOptions.rpcOptions] unchanged, except [method] and [params], which
    are the method's own even when [rpcOptions] names them; the provider
    options are handed over untouched. *)
Theorem rpcOptions_are_forwarded (op : Operation)
    (callOptions : option CallOptions) (w : Transcript) :
  firstFailure formatInput (inputConversions op) = None ->
  exists request params,
    snd (run op callOptions w)
      = (w ++ [if subscribe_of callOptions
               then ViaSubscribe request (providerCallOptions_of callOptions)
               else ViaSend request (providerCallOptions_of callOptions)])%list
    /\ getProp request "method" = JsString (methodOf op)
    /\ getProp request "params" = JsArray params
    /\ (forall k, k <> "method" -> k <> "params" ->
          getProp request k = getProp (spread (rpcOptions_of callOptions)) k
          /\ hasProp request k = hasProp (spread (rpcOptions_of callOptions)) k).
Proof.
  intros H.
  destruct (run_after_conversions op callOptions w H) as [params Hshape].
  exists (requestObject (methodOf op) params callOptions), params.
  cbv zeta in Hshape. rewrite Hshape.
  split; [now destruct (subscribe_of callOptions) |].
  split; [apply requestObject_method |].
  split; [apply requestObject_params |].
  intros k Hmethod Hparams. unfold requestObject.
  rewrite !getProp_setProp_other, !hasProp_setProp_other by congruence.
  now split.
Qed.

(** X9.  The filter methods [newFilter] and [getLogs] replace [fromBlock]
    and [toBlock] by their [formatInput] conversion only when the member is
    truthy and set it to [undefined] otherwise (an absent member and the
    block number 0 alike); [address], [topics] and every other member of
    the filter are dispatched unchanged. *)
Theorem filter_members_converted_only_when_truthy (op : Operation)
    (filter : Object) (callOptions : option CallOptions) (w : Transcript) :
  isFilterCall op filter ->
  firstFailure formatInput (inputConversions op) = None ->
  exists dispatched,
    let request := requestObject (methodOf op) [JsObject dispatched] callOptions in
    let options := providerCallOptions_of callOptions in
    snd (run op callOptions w)
      = (w ++ [if subscribe_of callOptions
               then ViaSubscribe request options
               else ViaSend request options])%list
    /\ (forall k, In k filterKeys ->
          hasProp dispatched k = true /\
          if truthy (getProp filter k)
          then formatInput (getProp filter k) None = Normal (getProp dispatched k)
          else getProp dispatched k = JsUndefined)
    /\ (forall k, ~ In k filterKeys ->
          getProp dispatched k = getProp filter k
          /\ hasProp dispatched k = hasProp filter k).
Proof.
  intros Hop H.
  assert (Hkeys : forall (f t : JsValue) k, ~ In k filterKeys ->
            getProp (setProp (setProp filter "fromBlock" f) "toBlock" t) k
              = getProp filter k
            /\ hasProp (setProp (setProp filter "fromBlock" f) "toBlock" t) k
                 = hasProp filter k).
  { intros f t k Hk. cbn in Hk.
    rewrite !getProp_setProp_other, !hasProp_setProp_other;
      [now split | | | |]; intros <-; tauto. }
  destruct Hop as [ -> | -> ];
    cbn [inputConversions firstFailure flat_map filterKeys app] in H;
    unfold optionalConversion in H; unfold_methods;
    split_conversions H; try discriminate;
    eexists; cbv zeta; cbn [methodOf];
    (split; [ destruct (subscribe_of callOptions); split_completions; reflexivity | ]);
    (split; [ | apply Hkeys ]).
  all: intros k [ <- | [ <- | [] ] ];
    (split; [ repeat first [ apply hasProp_setProp_same
                           | rewrite hasProp_setProp_other by discriminate ] | ]);
    repeat first [ rewrite getProp_setProp_same
                 | rewrite getProp_setProp_other by discriminate ];
    match goal with
    | E : truthy ?x = _ |- context [truthy ?x] => rewrite E
    end; first [ assumption | reflexivity ].
Qed.

(** X11.  [getFilterLogs] reports its failures under the context message
    of [getFilterChanges]: for a filter id that does not convert the two
    methods throw the same error. *)
Theorem getFilterLogs_fails_as_getFilterChanges (filterId : JsValue)
    (callOptions : option CallOptions) (w : Transcript) (cause : JsError) :
  formatInput filterId None = Abrupt cause ->
  run (GetFilterLogs filterId) callOptions w
    = (Abrupt (Error ("Error getting filter changes: " ++ message cause)), w)
  /\ run (GetFilterLogs filterId) callOptions w
       = run (GetFilterChanges filterId) callOptions w.
Proof.
  intros Hfail. unfold_methods. now rewrite Hfail.
Qed.

End Dispatch.

(** ** Numerals *)

Module Numerals.
Import Web3Utils.
Local Open Scope N_scope.

Lemma valueOfDigits_snoc (b : N) (ds : list N) (d : N) :
  valueOfDigits b (ds ++ [d]) = valueOfDigits b ds * b + d.
Proof. unfold valueOfDigits. now rewrite fold_left_app. Qed.

(** A numeral of [k] digits is below [b ^ k]. *)
Lemma valueOfDigits_bound (b : N) (ds : list N) :
  Forall (fun d => d < b) ds ->
  valueOfDigits b ds < b ^ N.of_nat (List.length ds).
Proof.
  induction ds as [|d ds IH] using rev_ind; intros H.
  - cbn. lia.
  - apply Forall_app in H as [Hds Hd]. inversion_clear Hd as [|? ? Hd' _].
    rewrite valueOfDigits_snoc, length_app, Nat.add_comm. cbn [List.length Nat.add].
    rewrite Nat2N.inj_succ, N.pow_succ_r'. specialize (IH Hds). nia.
Qed.

Lemma digitsOfValue_nonempty (b : N) (fuel : nat) (n : N) :
  digitsOfValue b (S fuel) n <> [].
Proof.
  cbn. destruct (n <? b); [discriminate |].
  intros H. now apply app_eq_nil in H as [_ H].
Qed.

Lemma digitsOfValue_below (b : N) (fuel : nat) (n : N) :
  0 < b -> Forall (fun d => d < b) (digitsOfValue b fuel n).
Proof.
  intros Hb. revert n. induction fuel as [|fuel IH]; intros n; cbn.
  - constructor.
  - destruct (N.ltb_spec n b).
    + now repeat constructor.
    + apply Forall_app. split; [apply IH |].
      repeat constructor. apply N.mod_lt. lia.
Qed.

(** With enough fuel the digits denote the number. *)
Lemma digitsOfValue_value (b : N) (fuel : nat) (n : N) :
  1 < b -> n < 2 ^ N.of_nat fuel ->
  valueOfDigits b (digitsOfValue b (S fuel) n) = n.
Proof.
  intros Hb. revert n. induction fuel as [|fuel IH]; intros n Hn.
  - cbn in Hn. assert (n = 0) as -> by lia. cbn.
    destruct (N.ltb_spec 0 b); [reflexivity | lia].
  - cbn [digitsOfValue]. destruct (N.ltb_spec n b).
    + cbn. lia.
    + rewrite valueOfDigits_snoc.
      change (valueOfDigits b (digitsOfValue b (S fuel) (n / b)) * b + n mod b = n).
      rewrite IH.
      * rewrite N.mul_comm. symmetry. apply N.div_mod'.
      * rewrite Nat2N.inj_succ, N.pow_succ_r' in Hn.
        apply N.Div0.div_lt_upper_bound. nia.
Qed.

Lemma digits_value (b n : N) : 1 < b -> valueOfDigits b (digits b n) = n.
Proof.
  intros Hb. unfold digits, digitFuel. apply digitsOfValue_value; [exact Hb |].
  rewrite N2Nat.id. apply N.size_gt.
Qed.

Lemma digits_below (b n : N) : 0 < b -> Forall (fun d => d < b) (digits b n).
Proof. apply digitsOfValue_below. Qed.

Lemma digits_nonempty (b n : N) : digits b n <> [].
Proof. apply digitsOfValue_nonempty. Qed.










(** *** Digit characters *)

Lemma digitChar_code (d : N) :
  d < 16 -> N_of_ascii (digitChar d) = if d <? 10 then 48 + d else 87 + d.
Proof.
  intros Hd. unfold digitChar.
  destruct (N.ltb_spec d 10); apply N_ascii_embedding; lia.
Qed.

Lemma hexValue_digitChar (d : N) : d < 16 -> hexValue (digitChar d) = Some d.
Proof.
  intros Hd. unfold hexValue. rewrite (digitChar_code d Hd).
  destruct (N.ltb_spec d 10).
  - replace (48 <=? 48 + d) with true by (symmetry; apply N.leb_le; lia).
    replace (48 + d <=? 57) with true by (symmetry; apply N.leb_le; lia).
    cbn [andb]. f_equal. lia.
  - replace (48 <=? 87 + d) with true by (symmetry; apply N.leb_le; lia).
    replace (87 + d <=? 57) with false by (symmetry; apply N.leb_gt; lia).
    replace (97 <=? 87 + d) with true by (symmetry; apply N.leb_le; lia).
    replace (87 + d <=? 102) with true by (symmetry; apply N.leb_le; lia).
    cbn [andb]. f_equal. lia.
Qed.





Lemma decValue_below (c : ascii) (d : N) : decValue c = Some d -> d < 10.
Proof.
  unfold decValue. cbv zeta.
  destruct (N.leb_spec 48 (N_of_ascii c)), (N.leb_spec (N_of_ascii c) 57);
    cbn [andb]; try discriminate. intros [= <-]. lia.
Qed.



(** *** Digit strings *)

Lemma digitsOfString_hex_written (ds : list N) :
  Forall (fun d => d < 16) ds ->
  digitsOfString hexValue (stringOfDigits ds) = Some ds.
Proof.
  induction 1 as [|d ds Hd _ IH]; cbn [stringOfDigits digitsOfString].
  - reflexivity.
  - now rewrite (hexValue_digitChar d Hd), IH.
Qed.


Lemma digitsOfString_cons (digit : ascii -> option N) (c : ascii) (s : string)
    (ds : list N) :
  digitsOfString digit (String c s) = Some ds ->
  exists d rest, ds = d :: rest /\ digit c = Some d /\ digitsOfString digit s = Some rest.
Proof.
  cbn [digitsOfString]. destruct (digit c) as [d|]; [| discriminate].
  destruct (digitsOfString digit s) as [rest|]; [| discriminate].
  intros [= <-]. now exists d, rest.
Qed.


Lemma digitsOfString_length (digit : ascii -> option N) (s : string) (ds : list N) :
  digitsOfString digit s = Some ds -> List.length ds = String.length s.
Proof.
  revert ds. induction s as [|c s IH]; intros ds H.
  - now injection H as <-.
  - apply digitsOfString_cons in H as (d & rest & -> & _ & Hrest).
    cbn. f_equal. now apply IH.
Qed.

Lemma stringOfDigits_length (ds : list N) :
  String.length (stringOfDigits ds) = List.length ds.
Proof. induction ds as [|d ds IH]; cbn; congruence. Qed.





Lemma hexBody_prefixed (hex : string) : hexBody ("0x" ++ hex) = Some hex.
Proof. reflexivity. Qed.


Lemma stringOfDigits_nonempty (ds : list N) :
  ds <> [] -> exists c rest, stringOfDigits ds = String c rest.
Proof. destruct ds as [|d ds]; [congruence |]. intros _. now eexists _, _. Qed.

(** Every number is written and read back, in either base. *)
Lemma parseNumeral_hexDigits (n : N) (pad : nat) :
  parseNumeral (JsString ("0x" ++ zeros pad ++ hexDigits n)) = Normal n.
Proof.
  unfold parseNumeral. rewrite hexBody_prefixed.
  assert (Hread : digitsOfString hexValue (zeros pad ++ hexDigits n)
                  = Some (repeat 0 pad ++ digits 16 n)%list).
  { induction pad as [|pad IH]; cbn [zeros repeat String.append app].
    - apply digitsOfString_hex_written, digits_below. lia.
    - cbn [digitsOfString]. now rewrite IH. }
  assert (Hvalue : valueOfDigits 16 (repeat 0 pad ++ digits 16 n) = n).
  { clear Hread. induction pad as [|pad IH]; cbn [repeat app].
    - apply digits_value. lia.
    - unfold valueOfDigits in *. cbn [fold_left]. exact IH. }
  cbv beta iota zeta.
  destruct (zeros pad ++ hexDigits n)%string eqn:E.
  - destruct pad; [| discriminate E]. cbn [zeros String.append] in E.
    destruct (stringOfDigits_nonempty (digits 16 n) (digits_nonempty 16 n)) as (c & r & Hc).
    unfold hexDigits in E. congruence.
  - now rewrite Hread, Hvalue.
Qed.



(** *** Widths *)

Lemma append_length (s t : string) :
  String.length (s ++ t) = (String.length s + String.length t)%nat.
Proof. induction s as [|c s IH]; cbn; congruence. Qed.

Lemma zeros_length (k : nat) : String.length (zeros k) = k.
Proof. induction k as [|k IH]; cbn; congruence. Qed.

Lemma digitsOfValue_S (b : N) (fuel : nat) (n : N) :
  digitsOfValue b (S fuel) n
    = if n <? b then [n] else (digitsOfValue b fuel (n / b) ++ [n mod b])%list.
Proof. reflexivity. Qed.

Lemma digitsOfValue_length (b : N) (fuel : nat) (n : N) (k : nat) :
  1 < b -> n < b ^ N.of_nat (S k) ->
  (List.length (digitsOfValue b (S fuel) n) <= S k)%nat.
Proof.
  intros Hb. revert n k. induction fuel as [|fuel IH]; intros n k Hn;
    rewrite digitsOfValue_S; destruct (N.ltb_spec n b); cbn [List.length]; try lia.
  - cbn [digitsOfValue app List.length]. lia.
  - rewrite length_app. cbn [List.length].
    destruct k as [|k].
    + exfalso. change (N.of_nat 1) with 1 in Hn. rewrite N.pow_1_r in Hn. lia.
    + assert (List.length (digitsOfValue b (S fuel) (n / b)) <= S k)%nat; [| lia].
      apply IH. rewrite Nat2N.inj_succ, N.pow_succ_r' in Hn.
      apply N.Div0.div_lt_upper_bound. exact Hn.
Qed.

(** A number has at most [k] hex digits exactly when it is below [16 ^ k]. *)
Lemma hexDigits_length (n : N) (k : nat) :
  (0 < k)%nat ->
  (String.length (hexDigits n) <= k)%nat <-> n < 16 ^ N.of_nat k.
Proof.
  intros Hk. unfold hexDigits. rewrite stringOfDigits_length. split.
  - intros Hlen. rewrite <- (digits_value 16 n) at 1 by lia.
    eapply N.lt_le_trans.
    + apply valueOfDigits_bound, digits_below. lia.
    + apply N.pow_le_mono_r; lia.
  - intros Hn. destruct k as [|k]; [lia |].
    apply digitsOfValue_length; [lia | exact Hn].
Qed.

Lemma pow_256 (width : N) : 256 ^ width = 16 ^ N.of_nat (2 * N.to_nat width).
Proof.
  rewrite Nat2N.inj_mul, N2Nat.id. change (N.of_nat 2) with 2.
  now rewrite N.pow_mul_r.
Qed.

End Numerals.

(** ** The converter *)

Section Converter.
Import Web3Utils Numerals.



End Converter.

Section Padding.
Import Web3Utils Numerals.
Local Open Scope N_scope.

(** C8.  With a byte width, [formatInput] left-pads the hex digits with
    zeros to exactly twice the width in digits, keeping the value, and it
    fails with a [ConversionError] when the value does not fit the width. *)
Theorem formatInput_pads_to_width (input : JsValue) (n : N) (width : N) :
  parseNumeral input = Normal n ->
  0 < width ->
  if n <? 256 ^ width
  then exists padded,
         formatInput input (Some width) = Normal (JsString ("0x" ++ padded))
         /\ String.length padded = (2 * N.to_nat width)%nat
         /\ (exists k, padded = zeros k ++ hexDigits n)
         /\ parseNumeral (JsString ("0x" ++ padded)) = Normal n
  else exists msg, formatInput input (Some width) = Abrupt (ConversionError msg).
Proof.
  intros Hparse Hwidth. unfold formatInput, convert. rewrite Hparse. cbn [render].
  assert (Hk : (0 < 2 * N.to_nat width)%nat) by lia.
  pose proof (hexDigits_length n (2 * N.to_nat width) Hk) as Hlen.
  rewrite <- pow_256 in Hlen.
  destruct (N.ltb_spec n (256 ^ width)) as [Hfit|Hwide].
  - apply Hlen in Hfit.
    destruct (Nat.ltb_spec (2 * N.to_nat width) (String.length (hexDigits n))); [lia |].
    eexists. split; [reflexivity |]. split; [| split].
    + rewrite append_length, zeros_length. lia.
    + now eexists.
    + apply parseNumeral_hexDigits.
  - destruct (Nat.ltb_spec (2 * N.to_nat width) (String.length (hexDigits n))).
    + now eexists.
    + exfalso. apply Hlen in H. lia.
Qed.

End Padding.

(** ** The result normalizer *)

Section Normalizer.
Import Web3Utils.

Lemma formatRecord_other (record : Object) (keys : list string)
    (type : ValidTypesEnum) (record' : Object) (k : string) :
  formatRecord record keys type = Normal record' ->
  ~ In k keys ->
  getProp record' k = getProp record k /\ hasProp record' k = hasProp record k.
Proof.
  revert record. induction keys as [|key rest IH]; intros record H Hk.
  - now injection H as <-.
  - cbn [formatRecord] in H. cbn [In] in Hk.
    destruct (hasProp record key).
    + destruct (convert (getProp record key) type None) as [v|e]; [| discriminate].
      destruct (IH _ H ltac:(tauto)) as [Hget Hhas].
      rewrite Hget, Hhas, getProp_setProp_other, hasProp_setProp_other by tauto.
      now split.
    + apply (IH _ H). tauto.
Qed.

(** What a record looks like after normalization: a named field that is
    present holds its conversion, a named field that is absent stays
    absent, and the order of the fields is kept. *)
Lemma formatRecord_named (record : Object) (keys : list string)
    (type : ValidTypesEnum) (record' : Object) (k : string) :
  NoDup keys ->
  formatRecord record keys type = Normal record' ->
  In k keys ->
  if hasProp record k
  then convert (getProp record k) type None = Normal (getProp record' k)
  else hasProp record' k = false /\ getProp record' k = getProp record k.
Proof.
  intros Hnodup. revert record.
  induction Hnodup as [|key rest Hnotin Hnodup IH]; intros record H Hk.
  - destruct Hk.
  - cbn [formatRecord] in H. destruct Hk as [<-|Hk].
    + destruct (hasProp record key) eqn:Hhas.
      * destruct (convert (getProp record key) type None) as [v|e]; [| discriminate].
        destruct (formatRecord_other _ _ _ _ key H Hnotin) as [-> _].
        now rewrite getProp_setProp_same.
      * destruct (formatRecord_other _ _ _ _ key H Hnotin) as [-> ->].
        now split.
    + assert (Hne : key <> k) by (intros ->; contradiction).
      destruct (hasProp record key) eqn:Hhas.
      * destruct (convert (getProp record key) type None) as [v|e]; [| discriminate].
        specialize (IH _ H Hk).
        now rewrite hasProp_setProp_other, getProp_setProp_other in IH by exact Hne.
      * exact (IH _ H Hk).
Qed.

Lemma syncingKeys_NoDup : NoDup syncingKeys.
Proof. repeat constructor; cbn; intuition discriminate. Qed.

Lemma formatItems_each (items : list JsValue) (keys : list string)
    (type : ValidTypesEnum) (items' : list JsValue) :
  formatItems items keys type = Normal items' ->
  Forall2 (fun item item' => formatItem item keys type = Normal item') items items'.
Proof.
  revert items'. induction items as [|item rest IH]; intros items' H.
  - injection H as <-. constructor.
  - cbn [formatItems] in H.
    destruct (formatItem item keys type) as [item'|e] eqn:E; [| discriminate].
    destruct (formatItems rest keys type) as [rest'|e]; [| discriminate].
    injection H as <-. constructor; [exact E | now apply IH].
Qed.

Variable requestManager_send : Object -> JsValue -> Completion Object.
Variable requestManager_subscribe : Object -> JsValue -> Completion JsValue.
Variable this : Web3Eth.

Local Abbreviation eth := (web3Eth requestManager_send requestManager_subscribe this).

(** C5.  A lookup whose RPC result is [null] returns the response as it
    came, the [null] result unnormalized and no error raised; a result that is
    a sequence is normalized element by element, each element on its own, and
    an empty sequence stays empty. *)
Theorem lookup_passes_null_and_maps_sequences (op : Operation)
    (keys : list string) (callOptions : option CallOptions) (w : Transcript) :
  lookupKeys op = Some keys ->
  subscribe_of callOptions = false ->
  firstFailure formatInput (inputConversions op) = None ->
  exists method params,
    let request := requestObject method params callOptions in
    let options := providerCallOptions_of callOptions in
    let type := orDefault (returnType_of callOptions) (_defaultReturnType this) in
    forall response,
      requestManager_send request options = Normal response ->
      let returned := fst (eth op callOptions w) in
      snd (eth op callOptions w) = (w ++ [ViaSend request options])%list
      /\ (getProp response "result" = JsNull ->
         returned = Normal (RpcResult (setProp response "result" JsNull)) /\
         (hasProp response "result" = true -> returned = Normal (RpcResult response)))
      /\ (forall items, getProp response "result" = JsArray items ->
            match formatItems items keys type with
            | Normal items' =>
                returned
                  = Normal (RpcResult (setProp response "result" (JsArray items')))
                /\ Forall2 (fun item item' => formatItem item keys type = Normal item')
                     items items'
            | Abrupt e => returned = Abrupt (Error (contextOf op ++ message e))
            end)
      /\ (getProp response "result" = JsArray [] ->
            returned = Normal (RpcResult (setProp response "result" (JsArray [])))).
Proof.
  intros Hkeys Hsub H.
  destruct (lookup_normalizes_result formatInput formatOutput formatRpcResultArray
              requestManager_send requestManager_subscribe this
              op keys callOptions w Hkeys Hsub H) as (method & params & Hrun).
  exists method, params. cbv zeta in Hrun |- *. intros response Hsend.
  unfold web3Eth. rewrite (Hrun response Hsend). cbn [fst snd].
  split; [reflexivity |]. split; [| split].
  - intros Hnull. rewrite Hnull. cbn. split; [reflexivity |].
    intros Hhas. rewrite <- Hnull. now rewrite setProp_unchanged.
  - intros items Hitems. rewrite Hitems. cbn [formatRpcResultArray].
    destruct (formatItems items keys _) as [items'|e] eqn:E; cbn.
    + split; [reflexivity | now apply formatItems_each].
    + reflexivity.
  - intros Hempty. now rewrite Hempty.
Qed.

(** C6.  The syncing status is normalized only in its record form: a
    boolean is returned as it came, and in a record the three block fields
    that are present are converted while everything else stays. *)
Theorem getSyncing_normalizes_only_records (callOptions : option CallOptions)
    (w : Transcript) (response : Object) :
  subscribe_of callOptions = false ->
  requestManager_send (requestObject "eth_syncing" [] callOptions)
    (providerCallOptions_of callOptions) = Normal response ->
  let returned := fst (eth GetSyncing callOptions w) in
  let type := _defaultReturnType this in
  (forall b, getProp response "result" = JsBool b ->
     returned = Normal (RpcResult (setProp response "result" (JsBool b))) /\
     (hasProp response "result" = true -> returned = Normal (RpcResult response)))
  /\ (forall record, getProp response "result" = JsObject record ->
        match formatRecord record syncingKeys type with
        | Normal record' =>
            returned
              = Normal (RpcResult (setProp response "result" (JsObject record')))
            /\ (forall k, In k syncingKeys -> hasProp record k = true ->
                  convert (getProp record k) type None = Normal (getProp record' k))
            /\ (forall k, ~ (In k syncingKeys /\ hasProp record k = true) ->
                  getProp record' k = getProp record k)
        | Abrupt e =>
            returned = Abrupt (Error ("Error getting syncing status: " ++ message e))
        end).
Proof.
  intros Hsub Hsend. cbv zeta. unfold web3Eth.
  rewrite (getSyncing_normalizes_result _ _ _ _ _ _ _ _ _ Hsub Hsend). cbn [fst].
  split.
  - intros b Hb. rewrite Hb. cbn. split; [reflexivity |].
    intros Hhas. rewrite <- Hb. now rewrite setProp_unchanged.
  - intros record Hrecord. rewrite Hrecord. cbn [formatRpcResultArray formatItem].
    destruct (formatRecord record syncingKeys _) as [record'|e] eqn:E; cbn.
    + split; [reflexivity |]. split.
      * intros k Hk Hhas.
        pose proof (formatRecord_named _ _ _ _ k syncingKeys_NoDup E Hk) as Hnamed.
        now rewrite Hhas in Hnamed.
      * intros k Hk.
        destruct (in_dec string_dec k syncingKeys) as [Hin|Hout].
        -- pose proof (formatRecord_named _ _ _ _ k syncingKeys_NoDup E Hin) as Hnamed.
           destruct (hasProp record k); [tauto | apply Hnamed].
        -- now apply (formatRecord_other _ _ _ _ k E).
    + reflexivity.
Qed.

End Normalizer.

(** ** Worked calls *)

(** C1.  [getBalance] puts the method name [net_version], that of
    [getNetworkVersion], in its request and not [eth_getBalance];
    [getSha3] puts [web3_clientVersion], that of [getClientVersion], and not
    the hashing method [web3_sha3]. *)
Theorem getBalance_and_getSha3_dispatch_other_methods :
  methodsOf (snd (exampleEth
      (GetBalance "0x407d73d8a49eeb85d32cf465507dd71d507100c1" (JsString "latest"))
      None []))
    = [JsString "net_version"]
  /\ methodsOf (snd (exampleEth GetNetworkVersion None [])) = [JsString "net_version"]
  /\ methodsOf (snd (exampleEth (GetSha3 "0x68656c6c6f20776f726c64") None []))
       = [JsString "web3_clientVersion"]
  /\ methodsOf (snd (exampleEth GetClientVersion None []))
       = [JsString "web3_clientVersion"]
  /\ JsString "net_version" <> JsString "eth_getBalance"
  /\ JsString "web3_clientVersion" <> JsString "web3_sha3".
Proof. repeat split; try reflexivity; discriminate. Qed.

(** C2.  With the tag [latest], [getBalance] transmits the tag as it is
    and turns the integer 100 into [0x64], but [getTransactionCount] (like
    every other method with a block identifier) calls the converter on the
    tag, which is no numeral: the call throws and nothing is transmitted. *)
Theorem block_tag_is_converted_outside_getBalance :
  paramsOf (snd (exampleEth (GetBalance "0xc94770007dda54cF92009BFF0dE90c06F603a09f"
                               (JsString "latest")) None []))
    = [JsArray [JsString "0xc94770007dda54cF92009BFF0dE90c06F603a09f"; JsString "latest"]]
  /\ paramsOf (snd (exampleEth (GetBalance "0xc94770007dda54cF92009BFF0dE90c06F603a09f"
                                  (JsNumber 100)) None []))
       = [JsArray [JsString "0xc94770007dda54cF92009BFF0dE90c06F603a09f"; JsString "0x64"]]
  /\ exampleEth (GetTransactionCount "0xc94770007dda54cF92009BFF0dE90c06F603a09f"
                   (JsString "latest")) None []
       = (Abrupt (Error "Error getting transaction count: not a valid hex or decimal numeral"),
          [])
  /\ paramsOf (snd (exampleEth (GetTransactionCount
                                  "0xc94770007dda54cF92009BFF0dE90c06F603a09f"
                                  (JsNumber 100)) None []))
       = [JsArray [JsString "0xc94770007dda54cF92009BFF0dE90c06F603a09f"; JsString "0x64"]].
Proof. repeat split; reflexivity. Qed.

(** C4.  Asked for [Number] by the caller, [getSyncing] still returns the
    block fields as hex strings, the default of the client, while
    [getGasPrice] returns a number. *)
Theorem getSyncing_returns_the_default_representation :
  returnType exampleOptions = Some Number
  /\ _defaultReturnType exampleClient = HexString
  /\ fst (exampleEth GetSyncing (Some exampleOptions) [])
       = Normal (RpcResult
           [("id", JsNumber 42); ("jsonrpc", JsString "2.0");
            ("result", JsObject [("startingBlock", JsString "0x384");
                                 ("currentBlock", JsString "0x386");
                                 ("highestBlock", JsString "0x454")])])
  /\ fst (exampleEth GetGasPrice (Some exampleOptions) [])
       = Normal (RpcResult
           [("id", JsNumber 42); ("jsonrpc", JsString "2.0");
            ("result", JsNumber 1000000000)]).
Proof. repeat split; reflexivity. Qed.

(** C3 as stated fails: the error thrown when [storagePosition] does not
    convert is the error thrown when [blockIdentifier] does not convert, so
    nothing in it tells which field failed. *)
Lemma wrapped_error_does_not_identify_the_field :
  exampleEth (GetStorageAt "0x295a70b2de5e3953354a6a8344e616ed314d7251"
                (JsString "zero") (JsNumber 1)) None []
    = exampleEth (GetStorageAt "0x295a70b2de5e3953354a6a8344e616ed314d7251"
                    (JsNumber 1) (JsString "zero")) None []
  /\ ~ exists field : JsError -> string,
         (forall e,
            fst (exampleEth (GetStorageAt "0x295a70b2de5e3953354a6a8344e616ed314d7251"
                               (JsString "zero") (JsNumber 1)) None []) = Abrupt e ->
            field e = "storagePosition")
         /\ (forall e,
               fst (exampleEth (GetStorageAt "0x295a70b2de5e3953354a6a8344e616ed314d7251"
                                  (JsNumber 1) (JsString "zero")) None []) = Abrupt e ->
               field e = "blockIdentifier").
Proof.
  split; [reflexivity |].
  intros (field & Hposition & Hblock).
  specialize (Hposition _ eq_refl). specialize (Hblock _ eq_refl).
  rewrite Hposition in Hblock. discriminate Hblock.
Qed.


(** ** The statements at concrete calls *)

Lemma failed_conversion_rethrown_before_transmission_witness :
  let op := GetStorageAt "0x295a70b2de5e3953354a6a8344e616ed314d7251"
              (JsNumber 0) (JsString "newest") in
  In (JsString "newest", None) (inputConversions op)
  /\ Web3Utils.formatInput (JsString "newest") None
       = Abrupt (Web3Utils.ConversionError "not a valid hex or decimal numeral")
  /\ exists cause,
       firstFailure Web3Utils.formatInput (inputConversions op) = Some cause
       /\ (exists input' byteLength',
             In (input', byteLength') (inputConversions op) /\
             Web3Utils.formatInput input' byteLength' = Abrupt cause)
       /\ exampleEth op None []
            = (Abrupt (Error (contextOf op ++ message cause)), []).
Proof.
  cbv zeta. split; [right; left; reflexivity |]. split; [reflexivity |].
  exact (failed_conversion_rethrown_before_transmission
           Web3Utils.formatInput Web3Utils.formatOutput Web3Utils.formatRpcResultArray
           exampleSend exampleSubscribe exampleClient
           (GetStorageAt "0x295a70b2de5e3953354a6a8344e616ed314d7251"
              (JsNumber 0) (JsString "newest"))
           None [] (JsString "newest") None _
           (or_intror (or_introl eq_refl)) eq_refl).
Defined.

Lemma subscribe_returns_subscription_as_is_witness :
  let op := GetBlockByNumber (JsNumber 100) true in
  let callOptions := withSubscribe true exampleOptions in
  subscribe callOptions = true
  /\ exists method params,
       let request := requestObject method params (Some callOptions) in
       let options := providerCallOptions callOptions in
       exampleEth op (Some callOptions) []
         = (rethrown op Subscription (exampleSubscribe request options),
            ([] ++ [ViaSubscribe request options])%list)
       /\ snd (exampleEth op (Some (withSubscribe false callOptions)) [])
            = ([] ++ [ViaSend request options])%list.
Proof.
  cbv zeta. split; [reflexivity |].
  exact (subscribe_returns_subscription_as_is
           Web3Utils.formatInput Web3Utils.formatOutput Web3Utils.formatRpcResultArray
           exampleSend exampleSubscribe exampleClient
           (GetBlockByNumber (JsNumber 100) true)
           (withSubscribe true exampleOptions) [] eq_refl).
Defined.

Lemma transaction_members_converted_only_when_truthy_witness :
  let transaction := exampleTransaction in
  let op := SendTransaction transaction in
  isTransactionCall op transaction
  /\ firstFailure Web3Utils.formatInput (inputConversions op) = None
  /\ exists method dispatched,
       let request := requestObject method [JsObject dispatched] None in
       let options := providerCallOptions_of None in
       snd (exampleEth op None [])
         = ([] ++ [if subscribe_of None
                   then ViaSubscribe request options
                   else ViaSend request options])%list
       /\ (forall k, In k transactionKeys ->
             hasProp dispatched k = true /\
             if truthy (getProp transaction k)
             then Web3Utils.formatInput (getProp transaction k) None
                    = Normal (getProp dispatched k)
             else getProp dispatched k = JsUndefined)
       /\ (getProp transaction "nonce" = JsNumber 0 ->
             getProp dispatched "nonce" = JsUndefined)
       /\ (forall k, ~ In k transactionKeys ->
             getProp dispatched k = getProp transaction k).
Proof.
  cbv zeta. split; [right; left; reflexivity |]. split; [reflexivity |].
  exact (transaction_members_converted_only_when_truthy
           Web3Utils.formatInput Web3Utils.formatOutput Web3Utils.formatRpcResultArray
           exampleSend exampleSubscribe exampleClient
           (SendTransaction exampleTransaction) exampleTransaction None []
           (or_intror (or_introl eq_refl)) eq_refl).
Defined.

Lemma lookup_passes_null_and_maps_sequences_witness :
  let op := GetLogs [("fromBlock", JsNumber 1); ("address", JsString "0x8888f1f195afa192cfee860698584c030f4c9db1")] in
  let callOptions := Some exampleOptions in
  lookupKeys op = Some logKeys
  /\ subscribe_of callOptions = false
  /\ firstFailure Web3Utils.formatInput (inputConversions op) = None
  /\ exists method params,
       let request := requestObject method params callOptions in
       let options := providerCallOptions_of callOptions in
       let type := orDefault (returnType_of callOptions) (_defaultReturnType exampleClient) in
       forall response,
         exampleSend request options = Normal response ->
         let returned := fst (exampleEth op callOptions []) in
         snd (exampleEth op callOptions []) = ([] ++ [ViaSend request options])%list
         /\ (getProp response "result" = JsNull ->
               returned = Normal (RpcResult (setProp response "result" JsNull)) /\
               (hasProp response "result" = true -> returned = Normal (RpcResult response)))
         /\ (forall items, getProp response "result" = JsArray items ->
               match Web3Utils.formatItems items logKeys type with
               | Normal items' =>
                   returned
                     = Normal (RpcResult (setProp response "result" (JsArray items')))
                   /\ Forall2 (fun item item' =>
                                 Web3Utils.formatItem item logKeys type = Normal item')
                        items items'
               | Abrupt e => returned = Abrupt (Error (contextOf op ++ message e))
               end)
         /\ (getProp response "result" = JsArray [] ->
               returned = Normal (RpcResult (setProp response "result" (JsArray [])))).
Proof.
  cbv zeta. split; [reflexivity |]. split; [reflexivity |]. split; [reflexivity |].
  exact (lookup_passes_null_and_maps_sequences exampleSend exampleSubscribe exampleClient
           (GetLogs [("fromBlock", JsNumber 1);
                     ("address", JsString "0x8888f1f195afa192cfee860698584c030f4c9db1")])
           logKeys (Some exampleOptions) [] eq_refl eq_refl eq_refl).
Defined.

Lemma getSyncing_normalizes_only_records_witness :
  let callOptions := Some exampleOptions in
  let response :=
    [("id", JsNumber 42); ("jsonrpc", JsString "2.0");
     ("result", JsObject [("startingBlock", JsString "0x384");
                          ("currentBlock", JsString "0x386");
                          ("highestBlock", JsString "0x454")])] in
  subscribe_of callOptions = false
  /\ exampleSend (requestObject "eth_syncing" [] callOptions)
       (providerCallOptions_of callOptions) = Normal response
  /\ let returned := fst (exampleEth GetSyncing callOptions []) in
     let type := _defaultReturnType exampleClient in
     (forall b, getProp response "result" = JsBool b ->
        returned = Normal (RpcResult (setProp response "result" (JsBool b))) /\
        (hasProp response "result" = true -> returned = Normal (RpcResult response)))
     /\ (forall record, getProp response "result" = JsObject record ->
           match Web3Utils.formatRecord record syncingKeys type with
           | Normal record' =>
               returned
                 = Normal (RpcResult (setProp response "result" (JsObject record')))
               /\ (forall k, In k syncingKeys -> hasProp record k = true ->
                     Web3Utils.convert (getProp record k) type None
                       = Normal (getProp record' k))
               /\ (forall k, ~ (In k syncingKeys /\ hasProp record k = true) ->
                     getProp record' k = getProp record k)
           | Abrupt e =>
               returned = Abrupt (Error ("Error getting syncing status: " ++ message e))
           end).
Proof.
  cbv zeta. split; [reflexivity |]. split; [reflexivity |].
  exact (getSyncing_normalizes_only_records exampleSend exampleSubscribe exampleClient
           (Some exampleOptions) [] _ eq_refl eq_refl).
Defined.

Lemma formatInput_pads_to_width_witness :
  Web3Utils.parseNumeral (JsString "0x1") = Normal 1%N
  /\ (0 < 32)%N
  /\ if (1 <? 256 ^ 32)%N
     then exists padded,
            Web3Utils.formatInput (JsString "0x1") (Some 32%N)
              = Normal (JsString ("0x" ++ padded))
            /\ String.length padded = (2 * N.to_nat 32)%nat
            /\ (exists k, padded = Web3Utils.zeros k ++ Web3Utils.hexDigits 1)
            /\ Web3Utils.parseNumeral (JsString ("0x" ++ padded)) = Normal 1%N
     else exists msg,
            Web3Utils.formatInput (JsString "0x1") (Some 32%N)
              = Abrupt (Web3Utils.ConversionError msg).
Proof.
  split; [reflexivity |]. split; [reflexivity |].
  exact (formatInput_pads_to_width (JsString "0x1") 1 32 eq_refl eq_refl).
Defined.


(** The example of the specification: [0x1] at a width of 32 bytes. *)
Example formatInput_0x1_at_32_bytes :
  Web3Utils.formatInput (JsString "0x1") (Some 32%N)
    = Normal (JsString
        "0x0000000000000000000000000000000000000000000000000000000000000001")
  /\ Web3Utils.formatInput
       (JsString "0x10000000000000000000000000000000000000000000000000000000000000000")
       (Some 32%N)
     = Abrupt (Web3Utils.ConversionError "exceeds the requested byte width").
Proof. split; reflexivity. Qed.

(** A scalar result that is null or absent is passed through, whatever the
    representation asked for. *)
Example formatOutput_passes_null_through :
  Web3Utils.formatOutput JsNull Number = Normal JsNull
  /\ Web3Utils.formatOutput JsUndefined HexString = Normal JsUndefined
  /\ Web3Utils.formatOutput (JsString "0x5208") Number = Normal (JsNumber 21000).
Proof. repeat split; reflexivity. Qed.

(** The examples of the specification for the normalizer. *)
Example formatRpcResultArray_examples :
  Web3Utils.formatRpcResultArray
    (JsObject [("hash", JsString "0xe670ec64"); ("gasUsed", JsString "0x5208")])
    blockKeys Number
    = Normal (JsObject [("hash", JsString "0xe670ec64"); ("gasUsed", JsNumber 21000)])
  /\ Web3Utils.formatRpcResultArray JsNull blockKeys Number = Normal JsNull
  /\ Web3Utils.formatRpcResultArray
       (JsArray [JsObject [("blockNumber", JsString "0x1b4")];
                 JsObject [("blockNumber", JsString "0x1b5")]])
       logKeys Number
     = Normal (JsArray [JsObject [("blockNumber", JsNumber 436)];
                        JsObject [("blockNumber", JsNumber 437)]])
  /\ Web3Utils.formatRpcResultArray (JsArray []) logKeys Number = Normal (JsArray []).
Proof. repeat split; reflexivity. Qed.

Lemma conversions_pass_transmits_witness :
  let op := GetStorageAt "0x295a70b2de5e3953354a6a8344e616ed314d7251"
              (JsNumber 0) (JsString "0x2") in
  firstFailure Web3Utils.formatInput (inputConversions op) = None
  /\ exists method params,
       let request := requestObject method params None in
       let options := providerCallOptions_of None in
       snd (exampleEth op None [])
         = ([] ++ [if subscribe_of None
                   then ViaSubscribe request options
                   else ViaSend request options])%list.
Proof.
  cbv zeta. split; [reflexivity |].
  exact (conversions_pass_transmits
           Web3Utils.formatInput Web3Utils.formatOutput Web3Utils.formatRpcResultArray
           exampleSend exampleSubscribe exampleClient
           (GetStorageAt "0x295a70b2de5e3953354a6a8344e616ed314d7251"
              (JsNumber 0) (JsString "0x2"))
           None [] eq_refl).
Defined.

Lemma transmitted_method_witness :
  let op := GetBalance "0x407d73d8a49eeb85d32cf465507dd71d507100c1" (JsNumber 100) in
  firstFailure Web3Utils.formatInput (inputConversions op) = None
  /\ methodsOf (snd (exampleEth op None []))
       = (methodsOf [] ++ [JsString (methodOf op)])%list.
Proof.
  cbv zeta. split; [reflexivity |].
  exact (transmitted_method
           Web3Utils.formatInput Web3Utils.formatOutput Web3Utils.formatRpcResultArray
           exampleSend exampleSubscribe exampleClient
           (GetBalance "0x407d73d8a49eeb85d32cf465507dd71d507100c1" (JsNumber 100))
           None [] eq_refl).
Defined.

Lemma block_identifier_is_always_converted_witness :
  let op := GetCode "0xa94f5374fce5edbc8e2a8697c15331677e6ebf0b" (JsString "pending") in
  blockIdentifierOf op = Some (JsString "pending")
  /\ isGetBalance op = false
  /\ Web3Utils.formatInput (JsString "pending") None
       = Abrupt (Web3Utils.ConversionError "not a valid hex or decimal numeral")
  /\ exists cause,
       exampleEth op None [] = (Abrupt (Error (contextOf op ++ message cause)), []).
Proof.
  cbv zeta. split; [reflexivity |]. split; [reflexivity |]. split; [reflexivity |].
  exact (block_identifier_is_always_converted
           Web3Utils.formatInput Web3Utils.formatOutput Web3Utils.formatRpcResultArray
           exampleSend exampleSubscribe exampleClient
           (GetCode "0xa94f5374fce5edbc8e2a8697c15331677e6ebf0b" (JsString "pending"))
           (JsString "pending") None [] _ eq_refl eq_refl eq_refl).
Defined.

Lemma getGasPrice_honours_returnType_witness :
  subscribe exampleOptions = false
  /\ returnType exampleOptions = Some Number
  /\ exampleSend (requestObject "eth_gasPrice" [] (Some exampleOptions))
       (providerCallOptions exampleOptions)
     = Normal [("id", JsNumber 42); ("jsonrpc", JsString "2.0");
               ("result", JsString "0x3b9aca00")]
  /\ fst (exampleEth GetGasPrice (Some exampleOptions) [])
     = rethrown GetGasPrice
         (fun v => RpcResult
            (setProp [("id", JsNumber 42); ("jsonrpc", JsString "2.0");
                      ("result", JsString "0x3b9aca00")] "result" v))
         (Web3Utils.formatOutput
            (getProp [("id", JsNumber 42); ("jsonrpc", JsString "2.0");
                      ("result", JsString "0x3b9aca00")] "result") Number).
Proof.
  split; [reflexivity |]. split; [reflexivity |]. split; [reflexivity |].
  exact (getGasPrice_honours_returnType
           Web3Utils.formatInput Web3Utils.formatOutput Web3Utils.formatRpcResultArray
           exampleSend exampleSubscribe exampleClient
           exampleOptions Number [] _ eq_refl eq_refl eq_refl).
Defined.

Lemma submitHashRate_parameters_witness :
  Web3Utils.formatInput (JsString "0x500000") (Some 32%N)
    = Normal (JsString
        "0x0000000000000000000000000000000000000000000000000000000000500000")
  /\ Web3Utils.formatInput
       (JsString "0x59daa26581d0acd1fce254fb7e85952f4c09d0915afd33d3886cd914bc7d283c")
       None
     = Normal (JsString
         "0x59daa26581d0acd1fce254fb7e85952f4c09d0915afd33d3886cd914bc7d283c")
  /\ paramsOf (snd (exampleEth
         (SubmitHashRate (JsString "0x500000")
            (JsString "0x59daa26581d0acd1fce254fb7e85952f4c09d0915afd33d3886cd914bc7d283c"))
         None []))
     = (paramsOf [] ++
        [JsArray
           [JsString "0x0000000000000000000000000000000000000000000000000000000000500000";
            JsString "0x59daa26581d0acd1fce254fb7e85952f4c09d0915afd33d3886cd914bc7d283c"]])%list.
Proof.
  split; [reflexivity |]. split; [reflexivity |].
  exact (submitHashRate_parameters
           Web3Utils.formatInput Web3Utils.formatOutput Web3Utils.formatRpcResultArray
           exampleSend exampleSubscribe exampleClient
           (JsString "0x500000")
           (JsString "0x59daa26581d0acd1fce254fb7e85952f4c09d0915afd33d3886cd914bc7d283c")
           _ _ None [] eq_refl eq_refl).
Defined.

Lemma request_response_result_witness :
  let op := GetTransactionCount "0xc94770007dda54cF92009BFF0dE90c06F603a09f"
              (JsNumber 100) in
  let callOptions := Some exampleOptions in
  subscribe_of callOptions = false
  /\ firstFailure Web3Utils.formatInput (inputConversions op) = None
  /\ exists params,
       let request := requestObject (methodOf op) params callOptions in
       let options := providerCallOptions_of callOptions in
       let result response := getProp response "result" in
       let type := orDefault (returnType_of callOptions)
                     (_defaultReturnType exampleClient) in
       snd (exampleEth op callOptions []) = ([] ++ [ViaSend request options])%list
       /\ (forall response,
             exampleSend request options = Normal response ->
             fst (exampleEth op callOptions [])
               = match normalizerOf op with
                 | PassThrough => Normal (RpcResult response)
                 | Scalar =>
                     withResult op response
                       (Web3Utils.formatOutput (result response) type)
                 | Records keys =>
                     withResult op response
                       (Web3Utils.formatRpcResultArray (result response) keys type)
                 | RecordsAtDefault keys =>
                     withResult op response
                       (Web3Utils.formatRpcResultArray (result response) keys
                          (_defaultReturnType exampleClient))
                 end)
       /\ (forall e,
             exampleSend request options = Abrupt e ->
             fst (exampleEth op callOptions [])
               = Abrupt (Error (contextOf op ++ message e))).
Proof.
  cbv zeta. split; [reflexivity |]. split; [reflexivity |].
  exact (request_response_result
           Web3Utils.formatInput Web3Utils.formatOutput Web3Utils.formatRpcResultArray
           exampleSend exampleSubscribe exampleClient
           (GetTransactionCount "0xc94770007dda54cF92009BFF0dE90c06F603a09f"
              (JsNumber 100))
           (Some exampleOptions) [] eq_refl eq_refl).
Defined.

Lemma every_failure_is_wrapped_witness :
  let op := GetBlockNumber in
  let failure := Error "Error getting block number: connection refused" in
  let sent := [ViaSend [("method", JsString "eth_blockNumber"); ("params", JsArray [])]
                 JsUndefined] in
  web3Eth offlineSend offlineSubscribe exampleClient op None [] = (Abrupt failure, sent)
  /\ exists cause,
       failure = Error (contextOf op ++ message cause)
       /\ ((firstFailure Web3Utils.formatInput (inputConversions op) = Some cause
            /\ sent = [])
           \/ exists params,
                let request := requestObject (methodOf op) params None in
                let options := providerCallOptions_of None in
                firstFailure Web3Utils.formatInput (inputConversions op) = None
                /\ ((subscribe_of None = true
                     /\ sent = ([] ++ [ViaSubscribe request options])%list
                     /\ offlineSubscribe request options = Abrupt cause)
                    \/ (subscribe_of None = false
                        /\ sent = ([] ++ [ViaSend request options])%list
                        /\ (offlineSend request options = Abrupt cause
                            \/ exists response,
                                 offlineSend request options = Normal response
                                 /\ normalizerThrows Web3Utils.formatOutput
                                      Web3Utils.formatRpcResultArray exampleClient
                                      op None response cause)))).
Proof.
  cbv zeta. split; [reflexivity |].
  exact (every_failure_is_wrapped
           Web3Utils.formatInput Web3Utils.formatOutput Web3Utils.formatRpcResultArray
           offlineSend offlineSubscribe exampleClient
           GetBlockNumber None [] _ _ eq_refl).
Defined.

Lemma filter_members_converted_only_when_truthy_witness :
  let op := GetLogs exampleFilter in
  isFilterCall op exampleFilter
  /\ firstFailure Web3Utils.formatInput (inputConversions op) = None
  /\ exists dispatched,
       let request := requestObject (methodOf op) [JsObject dispatched] None in
       let options := providerCallOptions_of None in
       snd (exampleEth op None [])
         = ([] ++ [if subscribe_of None
                   then ViaSubscribe request options
                   else ViaSend request options])%list
       /\ (forall k, In k filterKeys ->
             hasProp dispatched k = true /\
             if truthy (getProp exampleFilter k)
             then Web3Utils.formatInput (getProp exampleFilter k) None
                    = Normal (getProp dispatched k)
             else getProp dispatched k = JsUndefined)
       /\ (forall k, ~ In k filterKeys ->
             getProp dispatched k = getProp exampleFilter k
             /\ hasProp dispatched k = hasProp exampleFilter k).
Proof.
  cbv zeta. split; [right; reflexivity |]. split; [reflexivity |].
  exact (filter_members_converted_only_when_truthy
           Web3Utils.formatInput Web3Utils.formatOutput Web3Utils.formatRpcResultArray
           exampleSend exampleSubscribe exampleClient
           (GetLogs exampleFilter) exampleFilter None []
           (or_intror eq_refl) eq_refl).
Defined.

Lemma rpcOptions_are_forwarded_witness :
  let op := GetCode "0xa94f5374fce5edbc8e2a8697c15331677e6ebf0b" (JsString "0x2") in
  let callOptions := Some exampleOptions in
  firstFailure Web3Utils.formatInput (inputConversions op) = None
  /\ exists request params,
       snd (exampleEth op callOptions [])
         = ([] ++ [if subscribe_of callOptions
                   then ViaSubscribe request (providerCallOptions_of callOptions)
                   else ViaSend request (providerCallOptions_of callOptions)])%list
       /\ getProp request "method" = JsString (methodOf op)
       /\ getProp request "params" = JsArray params
       /\ (forall k, k <> "method" -> k <> "params" ->
             getProp request k = getProp (spread (rpcOptions_of callOptions)) k
             /\ hasProp request k = hasProp (spread (rpcOptions_of callOptions)) k).
Proof.
  cbv zeta. split; [reflexivity |].
  exact (rpcOptions_are_forwarded
           Web3Utils.formatInput Web3Utils.formatOutput Web3Utils.formatRpcResultArray
           exampleSend exampleSubscribe exampleClient
           (GetCode "0xa94f5374fce5edbc8e2a8697c15331677e6ebf0b" (JsString "0x2"))
           (Some exampleOptions) [] eq_refl).
Defined.

Lemma getFilterLogs_fails_as_getFilterChanges_witness :
  let cause := Web3Utils.ConversionError "not a valid hex or decimal numeral" in
  Web3Utils.formatInput (JsString "my filter") None = Abrupt cause
  /\ exampleEth (GetFilterLogs (JsString "my filter")) None []
       = (Abrupt (Error ("Error getting filter changes: " ++ message cause)), [])
  /\ exampleEth (GetFilterLogs (JsString "my filter")) None []
       = exampleEth (GetFilterChanges (JsString "my filter")) None [].
Proof.
  cbv zeta. split; [reflexivity |].
  exact (getFilterLogs_fails_as_getFilterChanges
           Web3Utils.formatInput Web3Utils.formatOutput Web3Utils.formatRpcResultArray
           exampleSend exampleSubscribe exampleClient
           (JsString "my filter") None [] _ eq_refl).
Defined.
